(** * Bus attendance: the scan-ingestion pipeline

    A shallow embedding of
    - [src/attendence-backend/server.js]: the Express handlers
      [POST /api/scan] and [GET /api/scans], and
    - [src/app/index.tsx]: the state of [BarcodeScannerScreen] and its
      event handlers,
    followed by the properties of the pipeline. *)

From Stdlib Require Import List String Ascii ZArith QArith Bool Lia.
Import ListNotations.

Local Open Scope string_scope.
Local Open Scope Z_scope.

Set Warnings "-register-all".

(** ** JavaScript values *)

(** A JavaScript number: a finite double (by its rational value; [0] and
    [-0] are not told apart, no operation below does), the infinities
    and NaN. *)
Inductive jsnum : Type :=
| NaN
| PosInf
| NegInf
| Fin (q : Q).

(** The values [express.json()] can put under [req.body], and those a
    thrown error carries in its fields.  The pairs of [JObj] are the own
    properties of the object; a string is given by its UTF-16 code
    units, one character each. *)
Inductive value : Type :=
| JUndefined
| JNull
| JBool (b : bool)
| JNum (n : jsnum)
| JStr (s : string)
| JArr (items : list value)
| JObj (fields : list (string * value)).

Definition num (z : Z) : value := JNum (Fin (inject_Z z)).

(** A thrown error, read through [error.code], [error.number] and
    [error.message]. *)
Record jserror : Type := mkError {
  code : value;
  number : value;
  message : value
}.

(** ToBoolean: what [!v], [a || b] and [c ? x : y] test. *)
Definition truthy (v : value) : bool :=
  match v with
  | JUndefined | JNull => false
  | JBool b => b
  | JNum NaN => false
  | JNum (Fin q) => negb (Qeq_bool q 0)
  | JNum _ => true
  | JStr s => negb (String.eqb s "")
  | JArr _ | JObj _ => true
  end.

(** [a || b] *)
Definition js_or (a b : value) : value := if truthy a then a else b.

Fixpoint lookup (k : string) (fields : list (string * value)) : value :=
  match fields with
  | [] => JUndefined
  | (k', v) :: rest => if String.eqb k' k then v else lookup k rest
  end.

(** Whether [k] is an own property of the object. *)
Fixpoint has_key (k : string) (fields : list (string * value)) : bool :=
  match fields with
  | [] => false
  | (k', _) :: rest => String.eqb k' k || has_key k rest
  end.

(** A TypeError has neither [code] nor [number]; the texts of the
    messages are V8's. *)
Definition TypeError (what k : string) : jserror :=
  mkError JUndefined JUndefined
          (JStr ("Cannot read properties of " ++ what ++ " (reading '" ++ k ++ "')")).

Definition DestructureError (what : string) : jserror :=
  mkError JUndefined JUndefined
          (JStr ("Cannot destructure property 'employeeId' of 'req.body' as it is "
                 ++ what ++ ".")).

Definition ConversionError : jserror :=
  mkError JUndefined JUndefined (JStr "Cannot convert object to primitive value").

(** The property read [v.k], for a key [k] that is neither an array
    index nor inherited from a prototype (the handlers read
    [employeeId], [scanDateTime], [scanType], [deviceInfo] and
    [length]).  Reading a property of [undefined] or [null] throws. *)
Definition get (v : value) (k : string) : value + jserror :=
  match v with
  | JUndefined => inr (TypeError "undefined" k)
  | JNull => inr (TypeError "null" k)
  | JStr s => inl (if String.eqb k "length" then num (Z.of_nat (String.length s)) else JUndefined)
  | JArr l => inl (if String.eqb k "length" then num (Z.of_nat (List.length l)) else JUndefined)
  | JObj fs => inl (lookup k fs)
  | JBool _ | JNum _ => inl JUndefined
  end.

(** [v === 'lit'] and [v === lit] for a string and a number literal. *)
Definition strict_eq_str (v : value) (lit : string) : bool :=
  match v with
  | JStr s => String.eqb s lit
  | _ => false
  end.

Definition strict_eq_num (v : value) (lit : Z) : bool :=
  match v with
  | JNum (Fin q) => Qeq_bool q (inject_Z lit)
  | _ => false
  end.

Definition num_lt (n : jsnum) (lit : Z) : bool :=
  match n with
  | NaN | PosInf => false
  | NegInf => true
  | Fin q => negb (Qle_bool (inject_Z lit) q)
  end.

Definition num_gt (n : jsnum) (lit : Z) : bool :=
  match n with
  | NaN | NegInf => false
  | PosInf => true
  | Fin q => negb (Qle_bool q (inject_Z lit))
  end.

(** ToPrimitive throws on these values.  An object that
    [express.json()] built converts through [valueOf] and [toString];
    the inherited [valueOf] returns the object itself, so the
    conversion rests on [toString], and an own property of that name,
    which JSON cannot make a function, hides the inherited one: the
    conversion then finds nothing to call and throws a TypeError.  An
    array converts by joining its items, each converted in turn (null
    and undefined items are skipped). *)
Fixpoint cannot_convert (v : value) : bool :=
  match v with
  | JObj fields => has_key "toString" fields
  | JArr items => existsb cannot_convert items
  | _ => false
  end.

(** ToPrimitive as [new Date(v)], [`${v}`] and [v < lit] apply it:
    nothing but the throw is kept where the result is only logged or
    handed to the driver. *)
Definition to_primitive (v : value) : unit + jserror :=
  if cannot_convert v then inr ConversionError else inl tt.

Section Runtime.

(** What the JavaScript runtime supplies and the handlers only call:
    StringToNumber, the string an array or object converts to when its
    conversion does not throw (ToPrimitive), and
    [Date.prototype.toISOString] of an instant in milliseconds since
    the epoch. *)
Variable StringToNumber : string -> jsnum.
Variable ToPrimitive : value -> string.
Variable toISOString : Z -> string.

(** The number a value converts to, when its conversion does not
    throw. *)
Definition number_of (v : value) : jsnum :=
  match v with
  | JUndefined => NaN
  | JNull => Fin 0
  | JBool b => Fin (if b then 1 else 0)
  | JNum n => n
  | JStr s => StringToNumber s
  | JArr _ | JObj _ => StringToNumber (ToPrimitive v)
  end.

Definition ToNumber (v : value) : jsnum + jserror :=
  if cannot_convert v then inr ConversionError else inl (number_of v).

(** [v < lit] and [v > lit] against a number literal. *)
Definition js_lt (v : value) (lit : Z) : bool + jserror :=
  match ToNumber v with
  | inl n => inl (num_lt n lit)
  | inr e => inr e
  end.

Definition js_gt (v : value) (lit : Z) : bool + jserror :=
  match ToNumber v with
  | inl n => inl (num_gt n lit)
  | inr e => inr e
  end.

(** ** The storage driver and the response, as the handlers use them *)

Inductive sqltype : Type :=
| VarChar (n : Z)
| DateTime2.

(** The third argument of [request.input]: a value of the request, or
    the Date that [new Date(v)] built from one. *)
Inductive bound : Type :=
| Plain (v : value)
| NewDate (v : value).

(** [new Date(v)]: the constructor converts [v] to a primitive first,
    and throws where that conversion throws. *)
Definition new_Date (v : value) : bound + jserror :=
  match to_primitive v with
  | inl _ => inl (NewDate v)
  | inr e => inr e
  end.

Record input : Type := mkInput {
  name : string;
  type : sqltype;
  arg : bound
}.

(** Calls into [mssql], in the order they are made. *)
Inductive event : Type :=
| Connect
| Query (text : string) (inputs : list input)
| Close.

(** [res.status(statusCode).json(body)]: [body] is the object literal
    handed to [json], key by key; what goes out is its serialisation,
    [sent_body] below. *)
Record response : Type := mkResponse {
  statusCode : Z;
  body : list (string * value)
}.

(** [JSON.stringify] as the client reads it back: a property whose
    value is undefined is left out, an undefined item of an array
    becomes null, and so does a number that is not finite. *)
Fixpoint to_json (v : value) : value :=
  match v with
  | JNum NaN | JNum PosInf | JNum NegInf => JNull
  | JArr items =>
      JArr (map (fun x => match x with
                          | JUndefined => JNull
                          | _ => to_json x
                          end) items)
  | JObj fields =>
      JObj ((fix keep (fs : list (string * value)) : list (string * value) :=
               match fs with
               | [] => []
               | (k, JUndefined) :: rest => keep rest
               | (k, x) :: rest => (k, to_json x) :: keep rest
               end) fields)
  | _ => v
  end.

(** One property of a serialised object. *)
Definition json_field (k : string) (v : value) : list (string * value) :=
  match v with
  | JUndefined => []
  | _ => [ (k, to_json v) ]
  end.

(** The body of a response as sent. *)
Definition sent_body (r : response) : list (string * value) :=
  match to_json (JObj (body r)) with
  | JObj fields => fields
  | _ => []
  end.

(** What the storage does in one request: whether [sql.connect],
    [request.query] and [pool.close] reject (and with what), how long
    each await takes, and the rows a SELECT returns. *)
Record storage : Type := mkStorage {
  connect_result : option jserror;
  connect_ms : N;
  query_result : option jserror;
  query_ms : N;
  recordset : list value;
  close_result : option jserror;
  close_ms : N
}.

(** The state a handler runs in: the server clock (milliseconds), the
    driver calls made so far, and the response sent, if any. *)
Record world : Type := mkWorld {
  now : Z;
  trace : list event;
  sent : option response
}.

Definition start (received : Z) : world := mkWorld received [] None.

(** Computations that may throw. *)
Definition M (A : Type) : Type := world -> (A + jserror) * world.

Definition ret {A} (a : A) : M A := fun w => (inl a, w).
Definition throw {A} (e : jserror) : M A := fun w => (inr e, w).
Definition bind {A B} (m : M A) (f : A -> M B) : M B :=
  fun w => match m w with
           | (inl a, w') => f a w'
           | (inr e, w') => (inr e, w')
           end.
Definition try_catch {A} (m : M A) (h : jserror -> M A) : M A :=
  fun w => match m w with
           | (inl a, w') => (inl a, w')
           | (inr e, w') => h e w'
           end.
Definition lift {A} (r : A + jserror) : M A :=
  match r with
  | inl a => ret a
  | inr e => throw e
  end.

Notation "x <- m ;; k" := (bind m (fun x => k))
  (at level 61, m at next level, right associativity).
Notation "m ;;; k" := (bind m (fun _ => k))
  (at level 61, right associativity).

Definition call (ev : event) (ms : N) (r : option jserror) : M unit :=
  fun w =>
    let w' := mkWorld (now w + Z.of_N ms) (trace w ++ [ev]) (sent w) in
    match r with
    | None => (inl tt, w')
    | Some e => (inr e, w')
    end.

Definition clock : M Z := fun w => (inl (now w), w).

(** Express refuses a second response: [json] throws once the headers
    are sent, and the first response stands. *)
Definition ERR_HTTP_HEADERS_SENT : jserror :=
  mkError (JStr "ERR_HTTP_HEADERS_SENT") JUndefined
          (JStr "Cannot set headers after they are sent to the client").

Definition send (status : Z) (b : list (string * value)) : M unit :=
  fun w =>
    match sent w with
    | None => (inl tt, mkWorld (now w) (trace w) (Some (mkResponse status b)))
    | Some _ => (inr ERR_HTTP_HEADERS_SENT, w)
    end.

(** ** [POST /api/scan] *)

(** The template literal of the source, line breaks and indentation
    included; it has no placeholder. *)
Definition sqlQuery : string :=
  "
            INSERT INTO AttendanceScans 
            (EmployeeID, ScanDateTime, BarcodeType, DeviceInfo, CreatedAt) 
            VALUES 
            (@employeeId, @scanDateTime, @scanType, @deviceInfo, GETDATE())
        ".

(** The four [request.input] calls, [date] being the Date that
    [new Date(scanDateTime)] gave. *)
Definition request_inputs (employeeId : value) (date : bound)
    (scanType deviceInfo : value) : list input :=
  [ mkInput "employeeId" (VarChar 50) (Plain employeeId);
    mkInput "scanDateTime" DateTime2 date;
    mkInput "scanType" (VarChar 20) (Plain (js_or scanType (JStr "UNKNOWN")));
    mkInput "deviceInfo" (VarChar 100)
            (Plain (js_or deviceInfo (JStr "Mobile Scanner"))) ].

(** The inputs of a request whose scanDateTime made a Date. *)
Definition scan_inputs (employeeId scanDateTime scanType deviceInfo : value)
  : list input :=
  request_inputs employeeId (NewDate scanDateTime) scanType deviceInfo.

(** The two validation responses. *)
Definition missing_field_body : list (string * value) :=
  [ ("success", JBool false);
    ("message", JStr "Employee ID and scan time are required") ].

Definition invalid_format_body : list (string * value) :=
  [ ("success", JBool false);
    ("message", JStr "Employee ID must be between 3 and 50 characters") ].

(** The catch block: [errorMessage] and [statusCode] after the chain of
    tests on the error. *)
Definition classify (error : jserror) : string * Z :=
  let errorMessage := "Failed to record scan" in
  let statusCode := 500 in
  if strict_eq_str (code error) "ELOGIN" then
    ("Database login failed. Check credentials.", 401)
  else if strict_eq_str (code error) "ESOCKET" then
    ("Cannot connect to SQL Server. Check server address and firewall.", 503)
  else if strict_eq_num (number error) 208 then
    ("Table not found. Check table name in database.", statusCode)
  else if strict_eq_num (number error) 547 then
    ("Employee ID not found in system.", 400)
  else (errorMessage, statusCode).

Definition error_body (error : jserror) : list (string * value) :=
  [ ("success", JBool false);
    ("message", JStr (fst (classify error)));
    ("error", message error);
    ("errorCode", js_or (code error) (number error)) ].

Definition scan_catch (error : jserror) : M unit :=
  send (snd (classify error)) (error_body error).

(** The response the catch block sends for [error]. *)
Definition catch_response (error : jserror) : response :=
  mkResponse (snd (classify error)) (error_body error).

Definition success_body (employeeId scanDateTime scanType : value) (t : Z)
  : list (string * value) :=
  [ ("success", JBool true);
    ("message", JStr "Scan recorded successfully");
    ("data", JObj [ ("employeeId", employeeId);
                    ("scanDateTime", scanDateTime);
                    ("scanType", scanType);
                    ("recordedAt", JStr (toISOString t)) ]) ].

(** From [sql.connect] to [pool.close]: the part of the try block after
    the validation.  Two of its steps convert a field of the request
    and throw where the conversion throws: [new Date(scanDateTime)],
    before the query is issued, and the template literal of the
    [console.log], after the query and before the 201. *)
Definition scan_persist (db : storage)
    (employeeId scanDateTime scanType deviceInfo : value) : M unit :=
  call Connect (connect_ms db) (connect_result db) ;;;
  date <- lift (new_Date scanDateTime) ;;
  call (Query sqlQuery (request_inputs employeeId date scanType deviceInfo))
       (query_ms db) (query_result db) ;;;
  lift (to_primitive employeeId) ;;;
  t <- clock ;;
  send 201 (success_body employeeId scanDateTime scanType t) ;;;
  call Close (close_ms db) (close_result db).

(** [const { employeeId, scanDateTime, scanType, deviceInfo } = req.body]:
    destructuring undefined or null throws before any property is
    read. *)
Definition destructure (req_body : value)
  : (value * value * value * value) + jserror :=
  match req_body with
  | JUndefined => inr (DestructureError "undefined")
  | JNull => inr (DestructureError "null")
  | _ =>
      match get req_body "employeeId", get req_body "scanDateTime",
            get req_body "scanType", get req_body "deviceInfo" with
      | inl employeeId, inl scanDateTime, inl scanType, inl deviceInfo =>
          inl (employeeId, scanDateTime, scanType, deviceInfo)
      | inr e, _, _, _ | _, inr e, _, _ | _, _, inr e, _ | _, _, _, inr e => inr e
      end
  end.

(** The try block.  The second guard is [a || b]: [employeeId.length]
    is read and compared a second time only when the first comparison
    is false. *)
Definition scan_try (db : storage) (req_body : value) : M unit :=
  fields <- lift (destructure req_body) ;;
  let '(employeeId, scanDateTime, scanType, deviceInfo) := fields in
  if negb (truthy employeeId) || negb (truthy scanDateTime) then
    send 400 missing_field_body
  else
    len <- lift (get employeeId "length") ;;
    below <- lift (js_lt len 3) ;;
    if below : bool then
      send 400 invalid_format_body
    else
      len' <- lift (get employeeId "length") ;;
      above <- lift (js_gt len' 50) ;;
      if above : bool then
        send 400 invalid_format_body
      else
        scan_persist db employeeId scanDateTime scanType deviceInfo.

Definition post_scan (db : storage) (req_body : value) : M unit :=
  try_catch (scan_try db req_body) scan_catch.

(** Both guards of the validation are evaluated on these two fields
    and neither fires. *)
Definition guards_pass (employeeId scanDateTime : value) : bool :=
  truthy employeeId && truthy scanDateTime &&
  match get employeeId "length" with
  | inl len =>
      match js_lt len 3, js_gt len 50 with
      | inl false, inl false => true
      | _, _ => false
      end
  | inr _ => false
  end.

(** ** [GET /api/scans] *)

Definition scansQuery : string :=
  "
            SELECT TOP 50 
                EmployeeID, 
                ScanDateTime, 
                BarcodeType,
                DeviceInfo,
                CreatedAt
            FROM AttendanceScans 
            ORDER BY ScanDateTime DESC
        ".

Definition get_scans (db : storage) : M unit :=
  try_catch
    (call Connect (connect_ms db) (connect_result db) ;;;
     call (Query scansQuery []) (query_ms db) (query_result db) ;;;
     call Close (close_ms db) (close_result db) ;;;
     send 200 [ ("success", JBool true);
                ("count", num (Z.of_nat (List.length (recordset db))));
                ("scans", JArr (recordset db)) ])
    (fun _ => send 500 [ ("success", JBool false);
                         ("message", JStr "Failed to fetch scans") ]).

End Runtime.

(** ** The error taxonomy *)

(** The outcome kinds the specification names. *)
Inductive IngestionError : Type :=
| MissingField
| InvalidFormat
| AuthFailure
| Unreachable
| ReferenceViolation
| SchemaMismatch
| Unknown.

(** The status the specification gives each kind. *)
Definition kind_status (k : IngestionError) : Z :=
  match k with
  | MissingField | InvalidFormat => 400
  | AuthFailure => 401
  | Unreachable => 503
  | ReferenceViolation => 400
  | SchemaMismatch | Unknown => 500
  end.

(** The specification's reading of a storage failure: a rejected login
    is [mssql]'s code ELOGIN, a socket failure its code ESOCKET, an
    unknown referenced entity SQL Server's error 547 and a missing
    object its error 208. *)
Definition kind_of (error : jserror) : IngestionError :=
  if strict_eq_str (code error) "ELOGIN" then AuthFailure
  else if strict_eq_str (code error) "ESOCKET" then Unreachable
  else if strict_eq_num (number error) 547 then ReferenceViolation
  else if strict_eq_num (number error) 208 then SchemaMismatch
  else Unknown.

(** The message by which a response of the endpoint shows its kind. *)
Definition kind_message (k : IngestionError) : string :=
  match k with
  | MissingField => "Employee ID and scan time are required"
  | InvalidFormat => "Employee ID must be between 3 and 50 characters"
  | AuthFailure => "Database login failed. Check credentials."
  | Unreachable => "Cannot connect to SQL Server. Check server address and firewall."
  | ReferenceViolation => "Employee ID not found in system."
  | SchemaMismatch => "Table not found. Check table name in database."
  | Unknown => "Failed to record scan"
  end.

(** The shape the specification gives a failure body. *)
Definition failure_keys : list string :=
  [ "success"; "message"; "error"; "errorCode" ].

(** ** The scanner screen ([BarcodeScannerScreen]) *)

Inductive CameraType : Type :=
| back
| front.

(** The state hooks of the component; [permission] is what
    [useCameraPermissions] returns ([None] while it is still null,
    otherwise its [granted] flag). *)
Record screen : Type := mkScreen {
  permission : option bool;
  scanned : bool;
  scannedData : string;
  scanTime : string;
  facing : CameraType;
  isActive : bool
}.

(** What the component renders, by its chain of early returns. *)
Inductive view : Type :=
| RequestingPermission
| PermissionPrompt
| CameraInactive
| Camera.

Definition render (s : screen) : view :=
  match permission s with
  | None => RequestingPermission
  | Some false => PermissionPrompt
  | Some true => if negb (isActive s) then CameraInactive else Camera
  end.

(** What a handler does besides setting state.  [NetworkRequest] is an
    HTTP request to the given URL. *)
Inductive effect : Type :=
| ConsoleLog (text : string)
| AlertShown (title text : string) (buttons : list string)
| RequestPermission
| NetworkRequest (url payload : string).

(** What the platform and the user can do to the screen. *)
Inductive action : Type :=
| Detect (type data : string) (now : Z)
| PressAlertOK
| PressAlertScanAgain
| PressScanAgain
| PressFlipCamera
| PressGrantPermission
| PermissionResult (granted : bool)
| Focus
| Blur.

Definition nl : string := String (ascii_of_nat 10) "".

Section Screen.

(** [now.toLocaleString('en-US', ...)] of an instant. *)
Variable toLocaleString : Z -> string.

Definition resetScanner (s : screen) : screen :=
  mkScreen (permission s) false "" "" (facing s) (isActive s).

Definition toggleCameraFacing (s : screen) : screen :=
  mkScreen (permission s) (scanned s) (scannedData s) (scanTime s)
           (match facing s with back => front | front => back end)
           (isActive s).

Definition setIsActive (b : bool) (s : screen) : screen :=
  mkScreen (permission s) (scanned s) (scannedData s) (scanTime s) (facing s) b.

(** The [Alert.alert] call of [handleBarCodeScanned]. *)
Definition scanAlert (type data formattedTime : string) : effect :=
  AlertShown "Barcode Scanned!"
    ("Type: " ++ type ++ nl ++ "Data: " ++ data ++ nl ++ nl ++
     "Time: " ++ formattedTime ++ nl ++ nl ++
     "Data will be sent to server when backend is implemented.")
    [ "OK"; "Scan Again" ].

Definition handleBarCodeScanned (s : screen) (type data : string) (now : Z)
  : screen * list effect :=
  if negb (scanned s) then
    let formattedTime := toLocaleString now in
    (mkScreen (permission s) true data formattedTime (facing s) (isActive s),
     [ scanAlert type data formattedTime ])
  else (s, []).

(** One event on the screen as rendered from [s], the state being [s]
    as well: a detection reaches [handleBarCodeScanned] only through
    the mounted [CameraView] whose [onBarcodeScanned] is defined, a
    button of the panel acts only where it is rendered.  This is
    [deliver] below on a screen whose render is up to date
    ([deliver_shown]). *)
Definition step (s : screen) (a : action) : screen * list effect :=
  match a with
  | Detect type data now =>
      match render s with
      | Camera => if scanned s then (s, [])
                  else handleBarCodeScanned s type data now
      | _ => (s, [])
      end
  | PressAlertOK => (s, [ConsoleLog "OK Pressed"])
  | PressAlertScanAgain => (resetScanner s, [])
  | PressScanAgain =>
      match render s with
      | Camera => if scanned s then (resetScanner s, []) else (s, [])
      | _ => (s, [])
      end
  | PressFlipCamera =>
      match render s with
      | Camera => (toggleCameraFacing s, [])
      | _ => (s, [])
      end
  | PressGrantPermission =>
      match render s with
      | PermissionPrompt => (s, [RequestPermission])
      | _ => (s, [])
      end
  | PermissionResult granted =>
      (mkScreen (Some granted) (scanned s) (scannedData s) (scanTime s)
                (facing s) (isActive s), [])
  | Focus => (setIsActive true s, [])
  | Blur => (setIsActive false s, [])
  end.

(** A sequence of events with the component rendered again after each
    one, so that every handler sees the state the event before it left:
    [play] below on [settled] events ([play_settled]).  Events that
    arrive within one render are not of this form; [play] has them. *)
Fixpoint run (s : screen) (actions : list action) : screen * list effect :=
  match actions with
  | [] => (s, [])
  | a :: rest =>
      let (s1, e1) := step s a in
      let (s2, e2) := run s1 rest in
      (s2, (e1 ++ e2)%list)
  end.

(** *** Handlers and renders

    A handler is a closure of the render that created it: it reads the
    state of that render ([shown]), while its [set...] calls update the
    state React holds ([latest]), which the next render will show.  The
    setters of the scan write constants, [setFacing] is given a
    function of the current value. *)
Record ui : Type := mkUi {
  shown : screen;
  latest : screen
}.

Inductive ui_event : Type :=
| Act (a : action)
| Rerender.

(** [handleBarCodeScanned] as created by the render of [shown]: its
    test [!scanned] reads the [scanned] of that render. *)
Definition handleBarCodeScanned_of (shown latest : screen)
    (type data : string) (now : Z) : screen * list effect :=
  if negb (scanned shown) then
    let formattedTime := toLocaleString now in
    (mkScreen (permission latest) true data formattedTime
              (facing latest) (isActive latest),
     [ scanAlert type data formattedTime ])
  else (latest, []).

(** One event on the screen as rendered from [shown]; the result is the
    state React holds afterwards. *)
Definition deliver (shown latest : screen) (a : action) : screen * list effect :=
  match a with
  | Detect type data now =>
      match render shown with
      | Camera => if scanned shown then (latest, [])
                  else handleBarCodeScanned_of shown latest type data now
      | _ => (latest, [])
      end
  | PressAlertOK => (latest, [ConsoleLog "OK Pressed"])
  | PressAlertScanAgain => (resetScanner latest, [])
  | PressScanAgain =>
      match render shown with
      | Camera => if scanned shown then (resetScanner latest, []) else (latest, [])
      | _ => (latest, [])
      end
  | PressFlipCamera =>
      match render shown with
      | Camera => (toggleCameraFacing latest, [])
      | _ => (latest, [])
      end
  | PressGrantPermission =>
      match render shown with
      | PermissionPrompt => (latest, [RequestPermission])
      | _ => (latest, [])
      end
  | PermissionResult granted =>
      (mkScreen (Some granted) (scanned latest) (scannedData latest)
                (scanTime latest) (facing latest) (isActive latest), [])
  | Focus => (setIsActive true latest, [])
  | Blur => (setIsActive false latest, [])
  end.

Definition ui_step (u : ui) (e : ui_event) : ui * list effect :=
  match e with
  | Act a => let (s, es) := deliver (shown u) (latest u) a in
             (mkUi (shown u) s, es)
  | Rerender => (mkUi (latest u) (latest u), [])
  end.

Fixpoint play (u : ui) (events : list ui_event) : ui * list effect :=
  match events with
  | [] => (u, [])
  | e :: rest =>
      let (u1, e1) := ui_step u e in
      let (u2, e2) := play u1 rest in
      (u2, (e1 ++ e2)%list)
  end.

End Screen.

(** Events with a render after each one. *)
Definition settled (actions : list action) : list ui_event :=
  flat_map (fun a => [Act a; Rerender]) actions.

(** Every detection of the sequence is followed at once by a render. *)
Fixpoint detections_rendered (events : list ui_event) : bool :=
  match events with
  | [] => true
  | Act (Detect _ _ _) :: rest =>
      match rest with
      | Rerender :: rest' => detections_rendered rest'
      | _ => false
      end
  | _ :: rest => detections_rendered rest
  end.

Definition count_ui_resets (events : list ui_event) : nat :=
  List.length (filter (fun e => match e with
                                | Act PressAlertScanAgain | Act PressScanAgain => true
                                | _ => false
                                end) events).

(** The screen as mounted, once the permission is granted. *)
Definition mounted : screen := mkScreen (Some true) false "" "" back true.

(** A burst of detections, each with its symbology, payload and the
    time it arrives at. *)
Definition detections (ds : list (string * string * Z)) : list action :=
  map (fun d => Detect (fst (fst d)) (snd (fst d)) (snd d)) ds.

(** The actions that clear the held scan. *)
Definition is_reset (a : action) : bool :=
  match a with
  | PressAlertScanAgain | PressScanAgain => true
  | _ => false
  end.

(** ** [testConnection] and [GET /api/health] *)

Section Health.

Variable toISOString : Z -> string.

(** [testConnection]: connect, close, and [true]; [false] from the
    catch block. *)
Definition testConnection (db : storage) : M bool :=
  try_catch
    (bind (call Connect (connect_ms db) (connect_result db)) (fun _ =>
     bind (call Close (close_ms db) (close_result db)) (fun _ =>
     ret true)))
    (fun _ => ret false).

(** The health handler; [uptime] is what [process.uptime()] returns.
    [res.json] without [res.status] answers 200. *)
Definition get_health (db : storage) (uptime : Q) : M unit :=
  bind (testConnection db) (fun dbConnected =>
  bind clock (fun t =>
  send 200
    [ ("status", JStr "ok");
      ("timestamp", JStr (toISOString t));
      ("database", JStr (if dbConnected : bool then "connected" else "disconnected"));
      ("uptime", JNum (Fin uptime)) ])).

End Health.

(** ** Counting what a run of the screen shows and clears *)

Definition is_alert (e : effect) : bool :=
  match e with
  | AlertShown _ _ _ => true
  | _ => false
  end.

Definition count_alerts (es : list effect) : nat :=
  List.length (filter is_alert es).

(** While no scan is held, the screen holds neither data nor time. *)
Definition idle_is_blank (s : screen) : Prop :=
  scanned s = false -> scannedData s = "" /\ scanTime s = "".

(** ** Requests and storage behaviours to evaluate the handlers on *)

(** Stand-ins for the runtime's functions where a handler is evaluated
    on a concrete request; no result below depends on their values. *)
Definition anyStringToNumber (s : string) : jsnum := NaN.
Definition anyToPrimitive (v : value) : string := "[object Object]".
Definition anyToISOString (t : Z) : string := "1970-01-01T00:00:00.000Z".
Definition anyToLocaleString (t : Z) : string := "Jan 15, 2024, 09:00:00 AM".

Definition run_post_scan : storage -> value -> M unit :=
  post_scan anyStringToNumber anyToPrimitive anyToISOString.

(** A storage that accepts every call at once. *)
Definition storage_up : storage :=
  mkStorage None 0 None 0 [] None 0.

(** Failures as [mssql] reports them. *)
Definition ELOGIN : jserror :=
  mkError (JStr "ELOGIN") JUndefined (JStr "Login failed for user 'app'.").
Definition ESOCKET : jserror :=
  mkError (JStr "ESOCKET") JUndefined (JStr "Failed to connect to db:1433").
Definition invalid_object : jserror :=
  mkError (JStr "EREQUEST") (num 208) (JStr "Invalid object name 'AttendanceScans'.").
Definition foreign_key : jserror :=
  mkError (JStr "EREQUEST") (num 547)
          (JStr "The INSERT statement conflicted with the FOREIGN KEY constraint.").

Definition login_refused : storage :=
  mkStorage (Some ELOGIN) 0 None 0 [] None 0.
Definition insert_refused : storage :=
  mkStorage None 0 (Some foreign_key) 0 [] None 0.

Definition scan_request (employeeId scanDateTime : value) : value :=
  JObj [ ("employeeId", employeeId); ("scanDateTime", scanDateTime) ].

Definition EMP001 : value :=
  scan_request (JStr "EMP001") (JStr "2024-01-15T09:00:00Z").

Definition unreachable : storage :=
  mkStorage (Some ESOCKET) 0 None 0 [] None 0.

(** Three rows as [GET /api/scans] gets them from the storage. *)
Definition three_rows : list value :=
  [ JObj [ ("EmployeeID", JStr "EMP003") ];
    JObj [ ("EmployeeID", JStr "EMP002") ];
    JObj [ ("EmployeeID", JStr "EMP001") ] ].

Definition close_refused : storage :=
  mkStorage None 0 None 0 [] (Some ESOCKET) 0.

(** A JSON object with a property named toString: no Date, string or
    number can be made of it. *)
Definition no_primitive : value := JObj [ ("toString", JNull) ].

(** The screen after it has taken the scan of EMP001. *)
Definition holding_EMP001 : screen :=
  fst (step anyToLocaleString mounted (Detect "code128" "EMP001" 0)).

(** ** Properties of the ingestion endpoint *)

(** The catch block on the failures above, and on an error that has
    neither code nor number. *)
Example classify_samples :
  map classify [ ELOGIN; ESOCKET; invalid_object; foreign_key; ConversionError ] =
  [ ("Database login failed. Check credentials.", 401);
    ("Cannot connect to SQL Server. Check server address and firewall.", 503);
    ("Table not found. Check table name in database.", 500);
    ("Employee ID not found in system.", 400);
    ("Failed to record scan", 500) ].
Proof. reflexivity. Qed.

(** With the storage host unreachable the answer is 503, and errorCode
    is the socket code. *)
Example unreachable_is_503 :
  sent (snd (run_post_scan unreachable EMP001 (start 0))) =
  Some (mkResponse 503
          [ ("success", JBool false);
            ("message",
             JStr "Cannot connect to SQL Server. Check server address and firewall.");
            ("error", JStr "Failed to connect to db:1433");
            ("errorCode", JStr "ESOCKET") ]).
Proof. reflexivity. Qed.

(** A request with no body at all ends in the catch block, as an
    unclassified failure; the body sent has no errorCode. *)
Example no_body_is_500 :
  option_map statusCode (sent (snd (run_post_scan storage_up JUndefined (start 0)))) =
    Some 500 /\
  option_map (fun r => map fst (sent_body r))
             (sent (snd (run_post_scan storage_up JUndefined (start 0)))) =
    Some [ "success"; "message"; "error" ] /\
  trace (snd (run_post_scan storage_up JUndefined (start 0))) = [].
Proof. repeat split. Qed.

(** A scanDateTime of which no Date can be made: the handler connects,
    throws before the query and answers 500, the pool left open. *)
Example no_date_is_500 :
  run_post_scan storage_up (scan_request (JStr "EMP001") no_primitive) (start 0) =
  (inl tt, mkWorld 0 [Connect] (Some (catch_response ConversionError))).
Proof. reflexivity. Qed.

(** An employeeId that passes the guards and cannot be written into the
    log line: the insert is made, then the handler throws and answers
    500. *)
Example no_log_line_is_500 :
  trace (snd (run_post_scan storage_up
                (scan_request no_primitive (JStr "2024-01-15T09:00:00Z")) (start 0))) =
    [ Connect;
      Query sqlQuery
        (scan_inputs no_primitive (JStr "2024-01-15T09:00:00Z") JUndefined JUndefined) ] /\
  sent (snd (run_post_scan storage_up
               (scan_request no_primitive (JStr "2024-01-15T09:00:00Z")) (start 0))) =
    Some (catch_response ConversionError).
Proof. split; reflexivity. Qed.

(** A length that cannot be compared: the guard itself throws. *)
Example no_length_is_500 :
  run_post_scan storage_up
    (scan_request (JObj [ ("length", no_primitive) ]) (JStr "2024-01-15T09:00:00Z"))
    (start 0) =
  (inl tt, mkWorld 0 [] (Some (catch_response ConversionError))).
Proof. reflexivity. Qed.

(** [GET /api/scans] on a storage that is up closes the pool and then
    answers with the rows. *)
Example get_scans_three_rows :
  get_scans (mkStorage None 0 None 0 three_rows None 0) (start 0) =
  (inl tt,
   mkWorld 0 [ Connect; Query scansQuery []; Close ]
     (Some (mkResponse 200
        [ ("success", JBool true);
          ("count", num 3);
          ("scans", JArr three_rows) ]))).
Proof. reflexivity. Qed.

Lemma Qle_bool_inject_Z (a b : Z) :
  Qle_bool (inject_Z a) (inject_Z b) = (a <=? b).
Proof.
  unfold Qle_bool, inject_Z; simpl. now rewrite !Z.mul_1_r.
Qed.

Lemma num_lt_num (z lit : Z) : num_lt (Fin (inject_Z z)) lit = (z <? lit).
Proof.
  unfold num_lt. rewrite Qle_bool_inject_Z.
  destruct (Z.leb_spec lit z), (Z.ltb_spec z lit); simpl; auto; lia.
Qed.

Lemma num_gt_num (z lit : Z) : num_gt (Fin (inject_Z z)) lit = (lit <? z).
Proof.
  unfold num_gt. rewrite Qle_bool_inject_Z.
  destruct (Z.leb_spec z lit), (Z.ltb_spec lit z); simpl; auto; lia.
Qed.

(** A truthy value has properties to read: [v.k] does not throw. *)
Lemma get_truthy (v : value) (k : string) :
  truthy v = true -> exists x, get v k = inl x.
Proof.
  destruct v; simpl; intros H; try discriminate; eauto.
Qed.

Lemma truthy_string_nonempty (s : string) :
  truthy (JStr s) = true <-> s <> "".
Proof.
  simpl. destruct s; simpl; split; intros H; congruence.
Qed.

Lemma strict_eq_num_208_547 (v : value) :
  strict_eq_num v 208 = true -> strict_eq_num v 547 = false.
Proof.
  destruct v as [| | |[| | |q]| | |]; simpl; try discriminate.
  intros H. apply Qeq_bool_iff in H.
  destruct (Qeq_bool q (inject_Z 547)) eqn:H'; [|reflexivity].
  apply Qeq_bool_iff in H'. rewrite H in H'. discriminate H'.
Qed.

(** The catch block computes the message and the status of the kind the
    specification gives the error. *)
Lemma classify_kind (error : jserror) :
  classify error = (kind_message (kind_of error), kind_status (kind_of error)).
Proof.
  unfold classify, kind_of.
  destruct (strict_eq_str (code error) "ELOGIN"); [reflexivity|].
  destruct (strict_eq_str (code error) "ESOCKET"); [reflexivity|].
  destruct (strict_eq_num (number error) 208) eqn:H208.
  - now rewrite (strict_eq_num_208_547 _ H208).
  - now destruct (strict_eq_num (number error) 547).
Qed.

Lemma kind_message_inj (k k' : IngestionError) :
  kind_message k = kind_message k' -> k = k'.
Proof.
  destruct k, k'; simpl; intros H; try reflexivity; discriminate H.
Qed.

Lemma kind_of_storage (error : jserror) :
  In (kind_of error)
     [AuthFailure; Unreachable; ReferenceViolation; SchemaMismatch; Unknown].
Proof.
  unfold kind_of.
  destruct (strict_eq_str (code error) "ELOGIN"); [simpl; auto|].
  destruct (strict_eq_str (code error) "ESOCKET"); [simpl; auto|].
  destruct (strict_eq_num (number error) 547); [simpl; auto|].
  destruct (strict_eq_num (number error) 208); simpl; auto 6.
Qed.

Lemma error_body_kind (error : jserror) :
  error_body error =
  [ ("success", JBool false);
    ("message", JStr (kind_message (kind_of error)));
    ("error", message error);
    ("errorCode", js_or (code error) (number error)) ].
Proof. unfold error_body. now rewrite classify_kind. Qed.

Lemma catch_response_kind (error : jserror) :
  catch_response error =
  mkResponse (kind_status (kind_of error))
    [ ("success", JBool false);
      ("message", JStr (kind_message (kind_of error)));
      ("error", message error);
      ("errorCode", js_or (code error) (number error)) ].
Proof. unfold catch_response. now rewrite error_body_kind, classify_kind. Qed.

(** The body of the catch block's response as sent: error and errorCode
    are there when they are defined. *)
Lemma sent_body_catch (error : jserror) :
  sent_body (catch_response error) =
  ([ ("success", JBool false);
     ("message", JStr (kind_message (kind_of error))) ] ++
   json_field "error" (message error) ++
   json_field "errorCode" (js_or (code error) (number error)))%list.
Proof.
  rewrite catch_response_kind. unfold sent_body, json_field. cbn [body].
  destruct (message error), (js_or (code error) (number error)); reflexivity.
Qed.

Lemma json_field_defined (k : string) (v : value) :
  v <> JUndefined -> map fst (json_field k v) = [k].
Proof. destruct v; intros H; try reflexivity. now destruct H. Qed.

Section Ingestion.

Variable StringToNumber : string -> jsnum.
Variable ToPrimitive : value -> string.
Variable toISOString : Z -> string.

Local Abbreviation post := (post_scan StringToNumber ToPrimitive toISOString).
Local Abbreviation attempt := (scan_try StringToNumber ToPrimitive toISOString).
Local Abbreviation persist := (scan_persist toISOString).
Local Abbreviation lt := (js_lt StringToNumber ToPrimitive).
Local Abbreviation gt := (js_gt StringToNumber ToPrimitive).
Local Abbreviation numof := (number_of StringToNumber ToPrimitive).
Local Abbreviation created := (success_body toISOString).

Lemma js_lt_eval (v : value) (lit : Z) :
  lt v lit = if cannot_convert v then inr ConversionError
             else inl (num_lt (numof v) lit).
Proof. unfold js_lt, ToNumber. now destruct (cannot_convert v). Qed.

Lemma js_gt_eval (v : value) (lit : Z) :
  gt v lit = if cannot_convert v then inr ConversionError
             else inl (num_gt (numof v) lit).
Proof. unfold js_gt, ToNumber. now destruct (cannot_convert v). Qed.

Lemma js_lt_num (z lit : Z) : lt (num z) lit = inl (z <? lit).
Proof.
  rewrite js_lt_eval. unfold num. cbn [cannot_convert number_of].
  now rewrite num_lt_num.
Qed.

Lemma js_gt_num (z lit : Z) : gt (num z) lit = inl (lit <? z).
Proof.
  rewrite js_gt_eval. unfold num. cbn [cannot_convert number_of].
  now rewrite num_gt_num.
Qed.

(** The try block on an object body, by its guards. *)
Lemma scan_try_missing db fields w :
  truthy (lookup "employeeId" fields) = false \/
  truthy (lookup "scanDateTime" fields) = false ->
  attempt db (JObj fields) w = send 400 missing_field_body w.
Proof.
  intros H. unfold scan_try. cbn [destructure get lift bind ret].
  destruct H as [H | H]; rewrite H; simpl; auto.
  now rewrite orb_true_r.
Qed.

Lemma scan_try_checked db fields len w :
  truthy (lookup "employeeId" fields) = true ->
  truthy (lookup "scanDateTime" fields) = true ->
  get (lookup "employeeId" fields) "length" = inl len ->
  attempt db (JObj fields) w =
  if cannot_convert len then (inr ConversionError, w)
  else if num_lt (numof len) 3 || num_gt (numof len) 50
       then send 400 invalid_format_body w
       else persist db (lookup "employeeId" fields) (lookup "scanDateTime" fields)
                    (lookup "scanType" fields) (lookup "deviceInfo" fields) w.
Proof.
  intros He Hd Hl. unfold scan_try, bind, lift, ret. cbn [destructure get].
  rewrite He, Hd, Hl. cbn [negb orb]. rewrite js_lt_eval.
  destruct (cannot_convert len) eqn:Hc; [reflexivity|].
  destruct (num_lt (numof len) 3); [reflexivity|]. cbn [orb].
  rewrite js_gt_eval, Hc.
  now destruct (num_gt (numof len) 50).
Qed.

Lemma guards_pass_eval (e d len : value) :
  get e "length" = inl len ->
  guards_pass StringToNumber ToPrimitive e d =
  truthy e && truthy d && negb (cannot_convert len) &&
  negb (num_lt (numof len) 3 || num_gt (numof len) 50).
Proof.
  intros Hl. unfold guards_pass. rewrite Hl, js_lt_eval, js_gt_eval.
  destruct (truthy e), (truthy d), (cannot_convert len); cbn; try reflexivity.
  now destruct (num_lt (numof len) 3), (num_gt (numof len) 50).
Qed.

Lemma post_returns db req w0 w :
  attempt db req w0 = (inl tt, w) -> post db req w0 = (inl tt, w).
Proof. intros H. unfold post_scan, try_catch. now rewrite H. Qed.

Lemma post_catches db req w0 error w :
  attempt db req w0 = (inr error, w) -> post db req w0 = scan_catch error w.
Proof. intros H. unfold post_scan, try_catch. now rewrite H. Qed.

(** The storage part of the try block, by what the storage does and by
    whether the two conversions throw. *)
Lemma persist_runs db e d st di received :
  persist db e d st di (start received) =
  let t1 := received + Z.of_N (connect_ms db) in
  let t2 := t1 + Z.of_N (query_ms db) in
  let insert := Query sqlQuery (scan_inputs e d st di) in
  match connect_result db with
  | Some error => (inr error, mkWorld t1 [Connect] None)
  | None =>
      if cannot_convert d then (inr ConversionError, mkWorld t1 [Connect] None)
      else
        match query_result db with
        | Some error => (inr error, mkWorld t2 [Connect; insert] None)
        | None =>
            if cannot_convert e
            then (inr ConversionError, mkWorld t2 [Connect; insert] None)
            else
              let w := mkWorld (t2 + Z.of_N (close_ms db)) [Connect; insert; Close]
                               (Some (mkResponse 201 (created e d st t2))) in
              match close_result db with
              | Some error => (inr error, w)
              | None => (inl tt, w)
              end
        end
  end.
Proof.
  unfold scan_persist, scan_inputs, new_Date, to_primitive, bind, lift, call, clock,
    send, start; simpl.
  destruct (connect_result db); [reflexivity|].
  destruct (cannot_convert d); [reflexivity|]. simpl.
  destruct (query_result db); [reflexivity|].
  destruct (cannot_convert e); [reflexivity|]. simpl.
  destruct (close_result db); reflexivity.
Qed.

Lemma guards_pass_checked db fields received :
  guards_pass StringToNumber ToPrimitive
              (lookup "employeeId" fields) (lookup "scanDateTime" fields) = true ->
  attempt db (JObj fields) (start received) =
  persist db (lookup "employeeId" fields) (lookup "scanDateTime" fields)
          (lookup "scanType" fields) (lookup "deviceInfo" fields) (start received).
Proof.
  intros H.
  destruct (get (lookup "employeeId" fields) "length") as [len|] eqn:Hg;
    [|unfold guards_pass in H; rewrite Hg, andb_false_r in H; discriminate H].
  rewrite (guards_pass_eval _ _ len Hg) in H.
  apply andb_prop in H as [H Hr]. apply andb_prop in H as [H Hc].
  apply andb_prop in H as [He Hd].
  rewrite (scan_try_checked _ _ len _ He Hd Hg).
  apply negb_true_iff in Hc, Hr. now rewrite Hc, Hr.
Qed.

Lemma string_id_passes (s : string) (d : value) :
  (3 <= String.length s <= 50)%nat -> truthy d = true ->
  guards_pass StringToNumber ToPrimitive (JStr s) d = true.
Proof.
  intros Hs Hd.
  rewrite (guards_pass_eval (JStr s) d (num (Z.of_nat (String.length s))))
    by reflexivity.
  assert (Hne : truthy (JStr s) = true).
  { apply truthy_string_nonempty. destruct s; simpl in *; [lia|congruence]. }
  rewrite Hne, Hd. cbn [andb cannot_convert num negb numof number_of].
  rewrite num_lt_num, num_gt_num.
  destruct (Z.ltb_spec (Z.of_nat (String.length s)) 3); [lia|].
  destruct (Z.ltb_spec 50 (Z.of_nat (String.length s))); [lia|]. reflexivity.
Qed.

(** The handler on a candidate that passes the validation, by what the
    storage does and by whether the two conversions throw. *)
Lemma post_accepted db fields received :
  guards_pass StringToNumber ToPrimitive
              (lookup "employeeId" fields) (lookup "scanDateTime" fields) = true ->
  post db (JObj fields) (start received) =
  let e := lookup "employeeId" fields in
  let d := lookup "scanDateTime" fields in
  let t1 := received + Z.of_N (connect_ms db) in
  let t2 := t1 + Z.of_N (query_ms db) in
  let insert := Query sqlQuery
                  (scan_inputs e d (lookup "scanType" fields) (lookup "deviceInfo" fields)) in
  match connect_result db with
  | Some error => (inl tt, mkWorld t1 [Connect] (Some (catch_response error)))
  | None =>
      if cannot_convert d
      then (inl tt, mkWorld t1 [Connect] (Some (catch_response ConversionError)))
      else
        match query_result db with
        | Some error =>
            (inl tt, mkWorld t2 [Connect; insert] (Some (catch_response error)))
        | None =>
            if cannot_convert e
            then (inl tt, mkWorld t2 [Connect; insert]
                            (Some (catch_response ConversionError)))
            else
              let w := mkWorld (t2 + Z.of_N (close_ms db)) [Connect; insert; Close]
                         (Some (mkResponse 201
                                  (created e d (lookup "scanType" fields) t2))) in
              match close_result db with
              | Some _ => (inr ERR_HTTP_HEADERS_SENT, w)
              | None => (inl tt, w)
              end
        end
  end.
Proof.
  intros H. pose proof (guards_pass_checked db fields received H) as Hrun.
  rewrite persist_runs in Hrun. cbv zeta in *.
  destruct (connect_result db) as [error|].
  { now rewrite (post_catches _ _ _ _ _ Hrun). }
  destruct (cannot_convert (lookup "scanDateTime" fields)).
  { now rewrite (post_catches _ _ _ _ _ Hrun). }
  destruct (query_result db) as [error|].
  { now rewrite (post_catches _ _ _ _ _ Hrun). }
  destruct (cannot_convert (lookup "employeeId" fields)).
  { now rewrite (post_catches _ _ _ _ _ Hrun). }
  destruct (close_result db) as [error|].
  - now rewrite (post_catches _ _ _ _ _ Hrun).
  - now rewrite (post_returns _ _ _ _ Hrun).
Qed.

(** On an accepted candidate the pool is closed exactly when the 201
    was sent. *)
Lemma close_only_on_success db fields received :
  guards_pass StringToNumber ToPrimitive
              (lookup "employeeId" fields) (lookup "scanDateTime" fields) = true ->
  In Close (trace (snd (post db (JObj fields) (start received)))) <->
  connect_result db = None /\ query_result db = None /\
  cannot_convert (lookup "scanDateTime" fields) = false /\
  cannot_convert (lookup "employeeId" fields) = false.
Proof.
  intros Hg. rewrite (post_accepted db fields received Hg). cbv zeta.
  destruct (connect_result db) as [e1|];
    [|destruct (cannot_convert (lookup "scanDateTime" fields));
      [|destruct (query_result db) as [e2|];
        [|destruct (cannot_convert (lookup "employeeId" fields));
          [|destruct (close_result db)]]]];
    cbn [snd trace In]; split;
    try (intros H; repeat (destruct H as [H|H]; try discriminate H); contradiction);
    try (intros [H1 [H2 [H3 H4]]]; discriminate);
    auto 6.
Qed.

Lemma post_missing db fields received :
  truthy (lookup "employeeId" fields) = false \/
  truthy (lookup "scanDateTime" fields) = false ->
  post db (JObj fields) (start received) =
  (inl tt, mkWorld received [] (Some (mkResponse 400 missing_field_body))).
Proof.
  intros H. apply post_returns. now rewrite scan_try_missing.
Qed.

(** An object body whose two fields are present, by its length guard. *)
Lemma post_guarded db fields received len :
  truthy (lookup "employeeId" fields) = true ->
  truthy (lookup "scanDateTime" fields) = true ->
  get (lookup "employeeId" fields) "length" = inl len ->
  (cannot_convert len = true ->
   attempt db (JObj fields) (start received) = (inr ConversionError, start received) /\
   post db (JObj fields) (start received) =
   (inl tt, mkWorld received [] (Some (catch_response ConversionError)))) /\
  (cannot_convert len = false ->
   num_lt (numof len) 3 || num_gt (numof len) 50 = true ->
   post db (JObj fields) (start received) =
   (inl tt, mkWorld received [] (Some (mkResponse 400 invalid_format_body)))) /\
  (cannot_convert len = false ->
   num_lt (numof len) 3 || num_gt (numof len) 50 = false ->
   guards_pass StringToNumber ToPrimitive
               (lookup "employeeId" fields) (lookup "scanDateTime" fields) = true).
Proof.
  intros He Hd Hl. split; [|split].
  - intros Hc.
    assert (Ha : attempt db (JObj fields) (start received) =
                 (inr ConversionError, start received)).
    { now rewrite (scan_try_checked _ _ len _ He Hd Hl), Hc. }
    split; [exact Ha|]. now rewrite (post_catches _ _ _ _ _ Ha).
  - intros Hc Hr. apply post_returns.
    now rewrite (scan_try_checked _ _ len _ He Hd Hl), Hc, Hr.
  - intros Hc Hr. now rewrite (guards_pass_eval _ _ len Hl), He, Hd, Hc, Hr.
Qed.

Lemma object_or_not (req : value) :
  (exists fields, req = JObj fields) \/ (forall fields, req <> JObj fields).
Proof.
  destruct req; try (right; intros fields H; discriminate H).
  left; eauto.
Qed.

Lemma object_cases (fields : list (string * value)) :
  (truthy (lookup "employeeId" fields) = false \/
   truthy (lookup "scanDateTime" fields) = false) \/
  exists len,
    truthy (lookup "employeeId" fields) = true /\
    truthy (lookup "scanDateTime" fields) = true /\
    get (lookup "employeeId" fields) "length" = inl len.
Proof.
  destruct (truthy (lookup "employeeId" fields)) eqn:He; [|auto].
  destruct (truthy (lookup "scanDateTime" fields)) eqn:Hd; [|auto].
  destruct (get_truthy _ "length" He) as [len Hl]. right; eauto.
Qed.

(** A body that is not an object has no field to pass the guards: it is
    refused for a missing field, or, when there is no body at all, the
    destructuring throws. *)
Lemma post_not_object db req received :
  (forall fields, req <> JObj fields) ->
  exists r,
    (forall db', post db' req (start received) =
                 (inl tt, mkWorld received [] (Some r))) /\
    (r = mkResponse 400 missing_field_body \/
     exists error,
       attempt db req (start received) = (inr error, start received) /\
       r = catch_response error).
Proof.
  intros Hno. destruct req as [| |b|n|s|items|fields];
    try (eexists; split; [intros db'; reflexivity|]; left; reflexivity);
    try (eexists; split; [intros db'; reflexivity|]; right; eexists; split;
         reflexivity).
  now destruct (Hno fields).
Qed.

(** An object body that does not pass the guards is answered at once,
    whatever the storage. *)
Lemma post_refused db fields received :
  guards_pass StringToNumber ToPrimitive
              (lookup "employeeId" fields) (lookup "scanDateTime" fields) = false ->
  exists r,
    (forall db', post db' (JObj fields) (start received) =
                 (inl tt, mkWorld received [] (Some r))) /\
    (r = mkResponse 400 missing_field_body \/
     r = mkResponse 400 invalid_format_body \/
     (attempt db (JObj fields) (start received) =
        (inr ConversionError, start received) /\
      r = catch_response ConversionError)).
Proof.
  intros Hg. destruct (object_cases fields) as [Hm | [len [He [Hd Hl]]]].
  - eexists. split; [intros db'; now apply post_missing|]. auto.
  - destruct (cannot_convert len) eqn:Hc.
    + eexists. split.
      * intros db'. now apply (proj1 (post_guarded db' fields received len He Hd Hl)).
      * right; right. split; [|reflexivity].
        now apply (proj1 (post_guarded db fields received len He Hd Hl)).
    + destruct (num_lt (numof len) 3 || num_gt (numof len) 50) eqn:Hr.
      * eexists. split; [|right; left; reflexivity].
        intros db'.
        now apply (proj1 (proj2 (post_guarded db' fields received len He Hd Hl))).
      * rewrite (proj2 (proj2 (post_guarded db fields received len He Hd Hl)) Hc Hr)
          in Hg. discriminate Hg.
Qed.

(** Whatever the request and the storage, one response is sent: a
    validation rejection, the catch block's answer to the error the try
    block threw, or the 201. *)
Lemma post_responds db req received :
  exists r,
    sent (snd (post db req (start received))) = Some r /\
    ((r = mkResponse 400 missing_field_body /\
      trace (snd (post db req (start received))) = []) \/
     (r = mkResponse 400 invalid_format_body /\
      trace (snd (post db req (start received))) = []) \/
     (exists error w,
         attempt db req (start received) = (inr error, w) /\
         r = catch_response error) \/
     statusCode r = 201).
Proof.
  destruct (object_or_not req) as [[fields ->] | Hno].
  - destruct (guards_pass StringToNumber ToPrimitive (lookup "employeeId" fields)
                (lookup "scanDateTime" fields)) eqn:Hg.
    + pose proof (guards_pass_checked db fields received Hg) as Hrun.
      rewrite persist_runs in Hrun.
      rewrite (post_accepted db fields received Hg). cbv zeta in *.
      destruct (connect_result db) as [e1|];
        [|destruct (cannot_convert (lookup "scanDateTime" fields));
          [|destruct (query_result db) as [e2|];
            [|destruct (cannot_convert (lookup "employeeId" fields));
              [|destruct (close_result db)]]]];
        eexists; (split; [reflexivity|]);
        try (right; right; right; reflexivity);
        right; right; left; eexists; eexists; (split; [exact Hrun | reflexivity]).
    + destruct (post_refused db fields received Hg) as [r [Hall Hr]].
      exists r. rewrite (Hall db). split; [reflexivity|].
      destruct Hr as [-> | [-> | [Ha ->]]]; [left | right; left | right; right; left];
        try (split; reflexivity).
      eexists; eexists; split; [exact Ha | reflexivity].
  - destruct (post_not_object db req received Hno) as [r [Hall Hr]].
    exists r. rewrite (Hall db). split; [reflexivity|].
    destruct Hr as [-> | [error [Ha ->]]]; [left; split; reflexivity|].
    right; right; left. eexists; eexists; split; [exact Ha | reflexivity].
Qed.

(** The body of the 201 as sent: a field of data that is undefined is
    left out. *)
Lemma sent_body_created (e d st : value) (t : Z) :
  sent_body (mkResponse 201 (created e d st t)) =
  [ ("success", JBool true);
    ("message", JStr "Scan recorded successfully");
    ("data", JObj (json_field "employeeId" e ++ json_field "scanDateTime" d ++
                   json_field "scanType" st ++
                   [ ("recordedAt", JStr (toISOString t)) ])%list) ].
Proof.
  unfold sent_body, success_body, json_field. cbn [body].
  destruct e, d, st; reflexivity.
Qed.

(** C1 (as amended): for every candidate that passes the validation
    (in particular every one whose employeeId is a string of 3 to 50
    characters and whose scanDateTime is present, by [string_id_passes])
    and whose employeeId and scanDateTime convert to primitives, as
    every string, number and boolean does, when the storage accepts the
    connection and the insert, the handler makes exactly the calls
    connect, one insert, close; the insert is the fixed statement with
    the four values as bound parameters (scanType and deviceInfo
    replaced by "UNKNOWN" and "Mobile Scanner" when absent); and the
    response is 201 with data holding the input employeeId,
    scanDateTime and scanType (left out of the body sent when it is
    absent) and a recordedAt read from the server clock once the insert
    has returned, at or after the time the request was received. *)
Theorem valid_scan_recorded db fields received :
  guards_pass StringToNumber ToPrimitive
              (lookup "employeeId" fields) (lookup "scanDateTime" fields) = true ->
  cannot_convert (lookup "employeeId" fields) = false ->
  cannot_convert (lookup "scanDateTime" fields) = false ->
  connect_result db = None ->
  query_result db = None ->
  let employeeId := lookup "employeeId" fields in
  let scanDateTime := lookup "scanDateTime" fields in
  let scanType := lookup "scanType" fields in
  let deviceInfo := lookup "deviceInfo" fields in
  let w := snd (post db (JObj fields) (start received)) in
  trace w =
    [ Connect;
      Query sqlQuery
        [ mkInput "employeeId" (VarChar 50) (Plain employeeId);
          mkInput "scanDateTime" DateTime2 (NewDate scanDateTime);
          mkInput "scanType" (VarChar 20) (Plain (js_or scanType (JStr "UNKNOWN")));
          mkInput "deviceInfo" (VarChar 100)
                  (Plain (js_or deviceInfo (JStr "Mobile Scanner"))) ];
      Close ] /\
  (scanType = JUndefined -> js_or scanType (JStr "UNKNOWN") = JStr "UNKNOWN") /\
  (deviceInfo = JUndefined ->
   js_or deviceInfo (JStr "Mobile Scanner") = JStr "Mobile Scanner") /\
  exists recordedAt,
    recordedAt = received + Z.of_N (connect_ms db) + Z.of_N (query_ms db) /\
    received <= recordedAt /\
    sent w = Some (mkResponse 201
      [ ("success", JBool true);
        ("message", JStr "Scan recorded successfully");
        ("data", JObj [ ("employeeId", employeeId);
                        ("scanDateTime", scanDateTime);
                        ("scanType", scanType);
                        ("recordedAt", JStr (toISOString recordedAt)) ]) ]) /\
    option_map sent_body (sent w) =
    Some [ ("success", JBool true);
           ("message", JStr "Scan recorded successfully");
           ("data", JObj (json_field "employeeId" employeeId ++
                          json_field "scanDateTime" scanDateTime ++
                          json_field "scanType" scanType ++
                          [ ("recordedAt", JStr (toISOString recordedAt)) ])%list) ].
Proof.
  intros Hg He Hd Hc Hq. cbv zeta.
  rewrite (post_accepted db fields received Hg). cbv zeta.
  rewrite Hc, Hd, Hq, He.
  destruct (close_result db); cbn [snd trace sent option_map];
    (split; [reflexivity|]);
    (split; [intros ->; reflexivity|]); (split; [intros ->; reflexivity|]);
    eexists; (split; [reflexivity|]); (split; [lia|]);
    (split; [reflexivity|]); now rewrite <- sent_body_created.
Qed.

(** C2: a candidate whose employeeId or scanDateTime is missing (an
    absent key reads as undefined; null, the empty string, 0 and false
    are treated alike) is answered 400 with the MissingField message,
    and the handler ends without having made any call to the storage,
    whatever the storage would have done. *)
Theorem missing_field_rejected db fields received :
  truthy (lookup "employeeId" fields) = false \/
  truthy (lookup "scanDateTime" fields) = false ->
  post db (JObj fields) (start received) =
  (inl tt, mkWorld received []
             (Some (mkResponse (kind_status MissingField)
                      [ ("success", JBool false);
                        ("message", JStr (kind_message MissingField)) ]))).
Proof.
  intros H. now apply post_missing.
Qed.

(** C3 (as amended): a candidate whose employeeId is a non-empty string
    of fewer than 3 or more than 50 characters, and whose scanDateTime
    is present, is answered 400 with the InvalidFormat message, and the
    handler ends without having made any call to the storage. *)
Theorem bad_length_rejected db fields received s :
  lookup "employeeId" fields = JStr s ->
  s <> "" ->
  (String.length s < 3 \/ 50 < String.length s)%nat ->
  truthy (lookup "scanDateTime" fields) = true ->
  post db (JObj fields) (start received) =
  (inl tt, mkWorld received []
             (Some (mkResponse (kind_status InvalidFormat)
                      [ ("success", JBool false);
                        ("message", JStr (kind_message InvalidFormat)) ]))).
Proof.
  intros He Hne Hlen Hd.
  assert (Ht : truthy (lookup "employeeId" fields) = true).
  { rewrite He. now apply truthy_string_nonempty. }
  assert (Hl : get (lookup "employeeId" fields) "length" =
               inl (num (Z.of_nat (String.length s)))) by now rewrite He.
  apply (proj1 (proj2 (post_guarded db fields received _ Ht Hd Hl)));
    [reflexivity|].
  unfold num. cbn [number_of]. rewrite num_lt_num, num_gt_num.
  destruct (Z.ltb_spec (Z.of_nat (String.length s)) 3); [reflexivity|].
  destruct (Z.ltb_spec 50 (Z.of_nat (String.length s))); [reflexivity|lia].
Qed.

(** X17: when the storage refuses the connection of an accepted
    candidate, or refuses its insert (which is issued once a Date has
    been made of scanDateTime), the catch block classifies the error, and the response carries the status and the message of
    exactly one kind of the taxonomy, the kind of that error:
    AuthFailure (login rejected) with 401, Unreachable (socket failure)
    with 503, ReferenceViolation (error 547) with 400, SchemaMismatch
    (error 208) with 500, and Unknown, for every other error, with 500. *)
Theorem storage_failure_classified db fields received error :
  guards_pass StringToNumber ToPrimitive
              (lookup "employeeId" fields) (lookup "scanDateTime" fields) = true ->
  connect_result db = Some error \/
  (connect_result db = None /\
   cannot_convert (lookup "scanDateTime" fields) = false /\
   query_result db = Some error) ->
  let r := sent (snd (post db (JObj fields) (start received))) in
  (exists k,
      In k [AuthFailure; Unreachable; ReferenceViolation; SchemaMismatch; Unknown] /\
      k = kind_of error /\
      classify error = (kind_message k, kind_status k) /\
      r = Some (mkResponse (kind_status k)
                  [ ("success", JBool false);
                    ("message", JStr (kind_message k));
                    ("error", message error);
                    ("errorCode", js_or (code error) (number error)) ]) /\
      forall k', r = Some (mkResponse (kind_status k')
                             [ ("success", JBool false);
                               ("message", JStr (kind_message k'));
                               ("error", message error);
                               ("errorCode", js_or (code error) (number error)) ]) ->
                 k' = k) /\
  (strict_eq_str (code error) "ELOGIN" = true ->
   kind_of error = AuthFailure /\ kind_status AuthFailure = 401) /\
  (strict_eq_str (code error) "ELOGIN" = false ->
   strict_eq_str (code error) "ESOCKET" = true ->
   kind_of error = Unreachable /\ kind_status Unreachable = 503) /\
  (strict_eq_str (code error) "ELOGIN" = false ->
   strict_eq_str (code error) "ESOCKET" = false ->
   strict_eq_num (number error) 547 = true ->
   kind_of error = ReferenceViolation /\ kind_status ReferenceViolation = 400) /\
  (strict_eq_str (code error) "ELOGIN" = false ->
   strict_eq_str (code error) "ESOCKET" = false ->
   strict_eq_num (number error) 208 = true ->
   kind_of error = SchemaMismatch /\ kind_status SchemaMismatch = 500) /\
  (strict_eq_str (code error) "ELOGIN" = false ->
   strict_eq_str (code error) "ESOCKET" = false ->
   strict_eq_num (number error) 547 = false ->
   strict_eq_num (number error) 208 = false ->
   kind_of error = Unknown /\ kind_status Unknown = 500).
Proof.
  intros Hg Hfail. cbv zeta.
  assert (Hr : sent (snd (post db (JObj fields) (start received))) =
               Some (mkResponse (kind_status (kind_of error))
                       [ ("success", JBool false);
                         ("message", JStr (kind_message (kind_of error)));
                         ("error", message error);
                         ("errorCode", js_or (code error) (number error)) ])).
  { rewrite (post_accepted db fields received Hg). cbv zeta.
    destruct Hfail as [Hc | [Hc [Hd Hq]]].
    - rewrite Hc. cbn [snd sent]. now rewrite catch_response_kind.
    - rewrite Hc, Hd, Hq. cbn [snd sent]. now rewrite catch_response_kind. }
  split.
  { exists (kind_of error). split; [apply kind_of_storage|].
    split; [reflexivity|]. split; [apply classify_kind|]. split; [exact Hr|].
    intros k' Hk'. rewrite Hr in Hk'. injection Hk' as _ Hm.
    symmetry. now apply kind_message_inj. }
  unfold kind_of.
  repeat split; intros;
    repeat match goal with H : _ = _ |- _ => rewrite H end; try reflexivity.
  now rewrite (strict_eq_num_208_547 (number error)) by assumption.
Qed.

(** C9 (as amended): every response of the ingestion endpoint other
    than the 201 has success false and a message.  The two validation
    failures are answered 400 with exactly the keys success and message
    (no error, no errorCode), before any call to the storage.  Every
    other failure is an error thrown by the try block and caught: it is
    answered with the status of that error's kind and the object
    success, message, error, errorCode built from that very error,
    message being the caller-safe text of its kind, error its
    error.message and errorCode its error.code, or its error.number
    when the code is missing.  As sent, a key whose value is undefined
    is left out: the body has the four keys when error.message and the
    errorCode are defined, and lacks errorCode when the error has
    neither code nor number. *)
Theorem failure_body_shape db req received r :
  sent (snd (post db req (start received))) = Some r ->
  statusCode r <> 201 ->
  lookup "success" (sent_body r) = JBool false /\
  (exists m, lookup "message" (sent_body r) = JStr m) /\
  ((statusCode r = 400 /\
    (sent_body r = missing_field_body \/ sent_body r = invalid_format_body) /\
    map fst (sent_body r) = ["success"; "message"] /\
    trace (snd (post db req (start received))) = []) \/
   (exists error w,
       attempt db req (start received) = (inr error, w) /\
       statusCode r = kind_status (kind_of error) /\
       body r = [ ("success", JBool false);
                  ("message", JStr (kind_message (kind_of error)));
                  ("error", message error);
                  ("errorCode", js_or (code error) (number error)) ] /\
       sent_body r =
         ([ ("success", JBool false);
            ("message", JStr (kind_message (kind_of error))) ] ++
          json_field "error" (message error) ++
          json_field "errorCode" (js_or (code error) (number error)))%list /\
       (message error <> JUndefined ->
        js_or (code error) (number error) <> JUndefined ->
        map fst (sent_body r) = failure_keys) /\
       (message error <> JUndefined ->
        js_or (code error) (number error) = JUndefined ->
        map fst (sent_body r) = ["success"; "message"; "error"]))).
Proof.
  intros Hs H201.
  destruct (post_responds db req received) as [r' [Hs' Hcases]].
  rewrite Hs in Hs'. injection Hs' as <-.
  destruct Hcases as [[-> Ht] | [[-> Ht] | [[error [w [Ha ->]]] | H]]].
  - split; [reflexivity|]. split; [eexists; reflexivity|].
    left. repeat split; auto.
  - split; [reflexivity|]. split; [eexists; reflexivity|].
    left. repeat split; auto.
  - rewrite sent_body_catch.
    split; [reflexivity|]. split; [eexists; reflexivity|].
    right. exists error, w. split; [exact Ha|].
    rewrite catch_response_kind. cbn [statusCode body].
    split; [reflexivity|]. split; [reflexivity|]. split; [reflexivity|].
    split.
    + intros Hm Hc. cbn [app map fst]. rewrite map_app.
      now rewrite (json_field_defined _ _ Hm), (json_field_defined _ _ Hc).
    + intros Hm Hc. cbn [app map fst]. rewrite map_app.
      rewrite (json_field_defined _ _ Hm), Hc. reflexivity.
  - contradiction.
Qed.

(** C10 (as amended): when employeeId is truthy and has no length
    property, so that reading its length gives undefined (a number such
    as 123456, true, an object without that key), and scanDateTime is
    present and a Date can be made of it (as of every string, number
    and boolean), neither guard of the validation fires: the handler
    goes on to the storage, connecting and, once connected, issuing the
    insert with that employeeId bound as given; the body it sends is
    neither of the two validation rejections. *)
Theorem lengthless_id_accepted db fields received :
  truthy (lookup "employeeId" fields) = true ->
  get (lookup "employeeId" fields) "length" = inl JUndefined ->
  truthy (lookup "scanDateTime" fields) = true ->
  cannot_convert (lookup "scanDateTime" fields) = false ->
  let w := snd (post db (JObj fields) (start received)) in
  guards_pass StringToNumber ToPrimitive
              (lookup "employeeId" fields) (lookup "scanDateTime" fields) = true /\
  (exists rest, trace w = Connect :: rest) /\
  (connect_result db = None ->
   exists rest,
     trace w =
     Connect ::
     Query sqlQuery
       [ mkInput "employeeId" (VarChar 50) (Plain (lookup "employeeId" fields));
         mkInput "scanDateTime" DateTime2 (NewDate (lookup "scanDateTime" fields));
         mkInput "scanType" (VarChar 20)
                 (Plain (js_or (lookup "scanType" fields) (JStr "UNKNOWN")));
         mkInput "deviceInfo" (VarChar 100)
                 (Plain (js_or (lookup "deviceInfo" fields) (JStr "Mobile Scanner"))) ] ::
     rest) /\
  (exists r, sent w = Some r /\
             sent_body r <> missing_field_body /\
             sent_body r <> invalid_format_body).
Proof.
  intros He Hl Hd Hcd. cbv zeta.
  assert (Hg : guards_pass StringToNumber ToPrimitive (lookup "employeeId" fields)
                 (lookup "scanDateTime" fields) = true).
  { now rewrite (guards_pass_eval _ _ JUndefined Hl), He, Hd. }
  split; [exact Hg|].
  assert (Hne : forall error,
             sent_body (catch_response error) <> missing_field_body /\
             sent_body (catch_response error) <> invalid_format_body).
  { intros error. rewrite sent_body_catch.
    pose proof (kind_of_storage error) as Hk.
    split; intros H; injection H as H _;
      destruct (kind_of error); try discriminate H;
      cbn in Hk; repeat (destruct Hk as [Hk|Hk]; try discriminate Hk);
      contradiction. }
  rewrite (post_accepted db fields received Hg). cbv zeta. rewrite Hcd.
  destruct (connect_result db) as [e1|];
    [|destruct (query_result db) as [e2|];
      [|destruct (cannot_convert (lookup "employeeId" fields));
        [|destruct (close_result db)]]];
    cbn [snd trace sent];
    (split; [eexists; reflexivity|]);
    (split; [first [discriminate | intros _; eexists; reflexivity]|]);
    eexists; (split; [reflexivity|]);
    first [apply Hne | split; discriminate].
Qed.

End Ingestion.

(** *** The endpoint on concrete requests *)

(** The scan of EMP001 is recorded by a storage that is up. *)
Lemma valid_scan_recorded_EMP001 :
  exists recordedAt,
    recordedAt = 0 /\
    0 <= recordedAt /\
    sent (snd (run_post_scan storage_up EMP001 (start 0))) =
    Some (mkResponse 201
      [ ("success", JBool true);
        ("message", JStr "Scan recorded successfully");
        ("data", JObj [ ("employeeId", JStr "EMP001");
                        ("scanDateTime", JStr "2024-01-15T09:00:00Z");
                        ("scanType", JUndefined);
                        ("recordedAt", JStr (anyToISOString recordedAt)) ]) ]) /\
    option_map sent_body (sent (snd (run_post_scan storage_up EMP001 (start 0)))) =
    Some [ ("success", JBool true);
           ("message", JStr "Scan recorded successfully");
           ("data", JObj [ ("employeeId", JStr "EMP001");
                           ("scanDateTime", JStr "2024-01-15T09:00:00Z");
                           ("recordedAt", JStr (anyToISOString recordedAt)) ]) ].
Proof.
  refine (proj2 (proj2 (proj2
    (valid_scan_recorded anyStringToNumber anyToPrimitive anyToISOString storage_up
       [ ("employeeId", JStr "EMP001");
         ("scanDateTime", JStr "2024-01-15T09:00:00Z") ]
       0 _ eq_refl eq_refl eq_refl eq_refl)))).
  apply (string_id_passes anyStringToNumber anyToPrimitive "EMP001");
    [simpl; lia | reflexivity].
Defined.

(** C1, refuted as stated: EMP001 is a valid candidate, yet when the
    storage rejects the login the handler makes no insert and answers
    401, not 201. *)
Lemma valid_scan_login_refused :
  guards_pass anyStringToNumber anyToPrimitive
              (JStr "EMP001") (JStr "2024-01-15T09:00:00Z") = true /\
  run_post_scan login_refused EMP001 (start 0) =
  (inl tt,
   mkWorld 0 [Connect]
     (Some (mkResponse 401
        [ ("success", JBool false);
          ("message", JStr "Database login failed. Check credentials.");
          ("error", JStr "Login failed for user 'app'.");
          ("errorCode", JStr "ELOGIN") ]))).
Proof. split; reflexivity. Qed.

(** A request without employeeId. *)
Lemma missing_field_rejected_no_id :
  truthy (lookup "employeeId" [ ("scanDateTime", JStr "2024-01-15T09:00:00Z") ]) = false /\
  run_post_scan login_refused
    (JObj [ ("scanDateTime", JStr "2024-01-15T09:00:00Z") ]) (start 0) =
  (inl tt,
   mkWorld 0 []
     (Some (mkResponse 400
        [ ("success", JBool false);
          ("message", JStr "Employee ID and scan time are required") ]))).
Proof.
  split; [reflexivity|].
  apply (missing_field_rejected anyStringToNumber anyToPrimitive anyToISOString
           login_refused [ ("scanDateTime", JStr "2024-01-15T09:00:00Z") ] 0).
  left; reflexivity.
Defined.

(** The two-character id AB. *)
Lemma bad_length_rejected_AB :
  (String.length "AB" < 3)%nat /\
  run_post_scan storage_up
    (scan_request (JStr "AB") (JStr "2024-01-15T09:00:00Z")) (start 0) =
  (inl tt,
   mkWorld 0 []
     (Some (mkResponse 400
        [ ("success", JBool false);
          ("message", JStr "Employee ID must be between 3 and 50 characters") ]))).
Proof.
  split; [simpl; lia|].
  apply (bad_length_rejected anyStringToNumber anyToPrimitive anyToISOString
           storage_up
           [ ("employeeId", JStr "AB");
             ("scanDateTime", JStr "2024-01-15T09:00:00Z") ] 0 "AB");
    [reflexivity | discriminate | left; simpl; lia | reflexivity].
Defined.

(** C3, refuted as stated: the empty employeeId has length 0, below 3,
    yet it is rejected by the first guard, with the MissingField
    message and not the InvalidFormat one. *)
Lemma empty_id_is_missing_field :
  (String.length "" < 3)%nat /\
  sent (snd (run_post_scan storage_up
               (scan_request (JStr "") (JStr "2024-01-15T09:00:00Z")) (start 0))) =
  Some (mkResponse 400
          [ ("success", JBool false);
            ("message", JStr (kind_message MissingField)) ]) /\
  sent (snd (run_post_scan storage_up
               (scan_request (JStr "") (JStr "2024-01-15T09:00:00Z")) (start 0))) <>
  Some (mkResponse 400
          [ ("success", JBool false);
            ("message", JStr (kind_message InvalidFormat)) ]).
Proof.
  split; [simpl; lia|]. split; [reflexivity|]. discriminate.
Qed.

(** A rejected login while EMP001 is ingested is an AuthFailure, 401. *)
Lemma storage_failure_classified_login :
  connect_result login_refused = Some ELOGIN /\
  sent (snd (run_post_scan login_refused EMP001 (start 0))) =
  Some (mkResponse 401
          [ ("success", JBool false);
            ("message", JStr (kind_message AuthFailure));
            ("error", message ELOGIN);
            ("errorCode", JStr "ELOGIN") ]).
Proof.
  split; [reflexivity|].
  destruct (storage_failure_classified anyStringToNumber anyToPrimitive anyToISOString
              login_refused
              [ ("employeeId", JStr "EMP001");
                ("scanDateTime", JStr "2024-01-15T09:00:00Z") ]
              0 ELOGIN eq_refl (or_introl eq_refl))
    as [[k [_ [Hk [_ [Hr _]]]]] _].
  rewrite Hk in Hr. exact Hr.
Defined.

(** C4, the failing case: the storage accepts the connection and the
    insert of EMP001 and then fails to close, with a socket error.  The
    catch block gives that error the status 503, but the 201 has been
    sent: the client is answered 201, and the handler's promise rejects
    because the second response is refused. *)
Theorem close_failure_answers_201 :
  close_result close_refused = Some ESOCKET /\
  snd (classify ESOCKET) = 503 /\
  option_map statusCode (sent (snd (run_post_scan close_refused EMP001 (start 0)))) =
    Some 201 /\
  fst (run_post_scan close_refused EMP001 (start 0)) = inr ERR_HTTP_HEADERS_SENT.
Proof. repeat split. Qed.

(** C6, the failing case: the storage accepts the connection and
    refuses the insert (a foreign-key violation); the handler answers
    from its catch block and ends having connected and queried, without
    the close that its success path makes.  [GET /api/scans] ends the
    same way when its query fails. *)
Theorem failed_insert_leaves_connection_open :
  connect_result insert_refused = None /\
  run_post_scan insert_refused EMP001 (start 0) =
  (inl tt,
   mkWorld 0
     [ Connect;
       Query sqlQuery
         [ mkInput "employeeId" (VarChar 50) (Plain (JStr "EMP001"));
           mkInput "scanDateTime" DateTime2 (NewDate (JStr "2024-01-15T09:00:00Z"));
           mkInput "scanType" (VarChar 20) (Plain (JStr "UNKNOWN"));
           mkInput "deviceInfo" (VarChar 100) (Plain (JStr "Mobile Scanner")) ] ]
     (Some (mkResponse 400
        [ ("success", JBool false);
          ("message", JStr "Employee ID not found in system.");
          ("error", message foreign_key);
          ("errorCode", JStr "EREQUEST") ]))) /\
  trace (snd (run_post_scan storage_up EMP001 (start 0))) =
  [ Connect;
    Query sqlQuery
      (scan_inputs (JStr "EMP001") (JStr "2024-01-15T09:00:00Z") JUndefined JUndefined);
    Close ] /\
  get_scans insert_refused (start 0) =
  (inl tt,
   mkWorld 0 [ Connect; Query scansQuery [] ]
     (Some (mkResponse 500
        [ ("success", JBool false);
          ("message", JStr "Failed to fetch scans") ]))).
Proof. repeat split. Qed.

(** A request with no body: the destructuring throws a TypeError, which
    has neither code nor number, and the body sent has three keys. *)
Lemma failure_body_shape_no_body :
  sent (snd (run_post_scan storage_up JUndefined (start 0))) =
    Some (catch_response (DestructureError "undefined")) /\
  lookup "success" (sent_body (catch_response (DestructureError "undefined"))) =
    JBool false /\
  (exists m,
      lookup "message" (sent_body (catch_response (DestructureError "undefined"))) =
      JStr m).
Proof.
  split; [reflexivity|].
  destruct (failure_body_shape anyStringToNumber anyToPrimitive anyToISOString
              storage_up JUndefined 0 (catch_response (DestructureError "undefined"))
              eq_refl)
    as [Hs [Hm _]]; [discriminate|].
  split; [exact Hs | exact Hm].
Defined.

(** C9, refuted as stated: the response to a request with no field has
    the keys success and message only; it has neither error nor
    errorCode. *)
Lemma validation_failure_has_two_keys :
  exists r,
    sent (snd (run_post_scan storage_up (JObj []) (start 0))) = Some r /\
    statusCode r = 400 /\
    lookup "success" (sent_body r) = JBool false /\
    map fst (sent_body r) = [ "success"; "message" ] /\
    map fst (sent_body r) <> failure_keys.
Proof.
  eexists. split; [reflexivity|]. repeat split. discriminate.
Qed.

(** The employeeId 123456, sent as a JSON number. *)
Lemma lengthless_id_accepted_number :
  get (num 123456) "length" = inl JUndefined /\
  exists rest,
    trace (snd (run_post_scan storage_up
                  (scan_request (num 123456) (JStr "2024-01-15T09:00:00Z")) (start 0))) =
    Connect :: rest.
Proof.
  split; [reflexivity|].
  exact (proj1 (proj2
    (lengthless_id_accepted anyStringToNumber anyToPrimitive anyToISOString storage_up
       [ ("employeeId", num 123456);
         ("scanDateTime", JStr "2024-01-15T09:00:00Z") ]
       0 eq_refl eq_refl eq_refl eq_refl))).
Defined.

(** C10, refuted as stated: employeeId 123456 has no length and
    scanDateTime is present, an object with a property named toString;
    the validation accepts the candidate and the handler connects, but
    [new Date(scanDateTime)] throws before the insert: no insert is
    issued and the answer is 500. *)
Lemma lengthless_id_without_date :
  truthy (num 123456) = true /\
  get (num 123456) "length" = inl JUndefined /\
  truthy no_primitive = true /\
  run_post_scan storage_up (scan_request (num 123456) no_primitive) (start 0) =
  (inl tt,
   mkWorld 0 [Connect]
     (Some (mkResponse 500
        [ ("success", JBool false);
          ("message", JStr "Failed to record scan");
          ("error", JStr "Cannot convert object to primitive value");
          ("errorCode", JUndefined) ]))).
Proof. repeat split. Qed.

(** ** Properties of the scanner screen *)

Section Capture.

Variable toLocaleString : Z -> string.

Local Abbreviation step' := (step toLocaleString).
Local Abbreviation run' := (run toLocaleString).

(** While a scan is held, detections change nothing and show nothing. *)
Lemma held_ignores_detections (s : screen) (ds : list (string * string * Z)) :
  scanned s = true -> run' s (detections ds) = (s, []).
Proof.
  intros Hs. induction ds as [|d ds IH]; [reflexivity|].
  cbn [detections map run]. fold (detections ds).
  assert (Hstep : step' s (Detect (fst (fst d)) (snd (fst d)) (snd d)) = (s, [])).
  { cbn [step]. rewrite Hs. now destruct (render s). }
  rewrite Hstep, IH. reflexivity.
Qed.

Lemma run_app (s : screen) (xs ys : list action) :
  run' s (xs ++ ys)%list =
  let (s1, e1) := run' s xs in
  let (s2, e2) := run' s1 ys in
  (s2, (e1 ++ e2)%list).
Proof.
  revert s. induction xs as [|a xs IH]; intros s; cbn [run app].
  - now destruct (run' s ys).
  - destruct (step' s a) as [s1 e1]. rewrite IH.
    destruct (run' s1 xs) as [s2 e2]. destruct (run' s2 ys) as [s3 e3].
    now rewrite app_assoc.
Qed.


(** When the screen is rendered again after every detection: with the
    camera view up and no scan held, of a burst of detections D1, D2,
    ..., Dn only D1 is taken: the screen holds D1's payload and the
    time D1 arrived at, one alert (D1's) is shown, and the later
    detections leave no trace.  The held scan stays until Scan Again,
    which clears it; the next detection is then taken. *)
Theorem first_detection_wins (s : screen) (type data : string) (now : Z)
    (later : list (string * string * Z)) :
  render s = Camera ->
  scanned s = false ->
  let captured :=
    mkScreen (permission s) true data (toLocaleString now) (facing s) (isActive s) in
  let idle := mkScreen (permission s) false "" "" (facing s) (isActive s) in
  run' s (Detect type data now :: detections later) =
    (captured, [ scanAlert type data (toLocaleString now) ]) /\
  run' s (Detect type data now :: detections later ++ [PressScanAgain]) =
    (idle, [ scanAlert type data (toLocaleString now) ]) /\
  forall type' data' now' later',
    run' s (Detect type data now :: detections later ++
            PressScanAgain :: Detect type' data' now' :: detections later') =
    (mkScreen (permission s) true data' (toLocaleString now') (facing s) (isActive s),
     [ scanAlert type data (toLocaleString now);
       scanAlert type' data' (toLocaleString now') ]).
Proof.
  intros Hr Hs. cbv zeta.
  assert (Hp : permission s = Some true /\ isActive s = true).
  { unfold render in Hr. destruct (permission s) as [[|]|]; try discriminate.
    destruct (isActive s); [auto | discriminate]. }
  destruct Hp as [Hp Ha].
  assert (Hfirst : forall s0 t d n,
             render s0 = Camera -> scanned s0 = false ->
             step' s0 (Detect t d n) =
             (mkScreen (permission s0) true d (toLocaleString n) (facing s0) (isActive s0),
              [ scanAlert t d (toLocaleString n) ])).
  { intros s0 t d n Hr0 Hs0. cbn [step]. rewrite Hr0, Hs0.
    unfold handleBarCodeScanned. now rewrite Hs0. }
  assert (Hburst : forall s0 t d n ds,
             render s0 = Camera -> scanned s0 = false ->
             run' s0 (Detect t d n :: detections ds) =
             (mkScreen (permission s0) true d (toLocaleString n) (facing s0) (isActive s0),
              [ scanAlert t d (toLocaleString n) ])).
  { intros s0 t d n ds Hr0 Hs0. cbn [run]. rewrite (Hfirst _ _ _ _ Hr0 Hs0).
    now rewrite held_ignores_detections. }
  split; [now apply Hburst|].
  assert (Hreset :
            run' s (Detect type data now :: detections later ++ [PressScanAgain]) =
            (mkScreen (permission s) false "" "" (facing s) (isActive s),
             [ scanAlert type data (toLocaleString now) ])).
  { change (Detect type data now :: detections later ++ [PressScanAgain])
      with ((Detect type data now :: detections later) ++ [PressScanAgain])%list.
    rewrite run_app, (Hburst _ _ _ _ _ Hr Hs).
    cbn [run step]. unfold render. simpl. rewrite Hp, Ha. reflexivity. }
  split; [exact Hreset|].
  intros type' data' now' later'.
  change (Detect type data now :: detections later ++
          PressScanAgain :: Detect type' data' now' :: detections later')
    with (Detect type data now :: detections later ++
          [PressScanAgain] ++ Detect type' data' now' :: detections later')%list.
  rewrite app_assoc.
  change (Detect type data now :: (detections later ++ [PressScanAgain]) ++
          Detect type' data' now' :: detections later')
    with ((Detect type data now :: detections later ++ [PressScanAgain]) ++
          Detect type' data' now' :: detections later')%list.
  rewrite run_app, Hreset, Hburst; [reflexivity| |reflexivity].
  unfold render; cbn [permission isActive]. now rewrite Hp, Ha.
Qed.

(** C7 (as amended): losing and regaining focus only turns [isActive]
    off and on again, so the camera view is rendered again; what the
    screen holds is as it was.  A screen that held a scan still holds
    it, and detections are still ignored, until Scan Again; a screen
    that held none takes the next detection. *)
Theorem refocus_keeps_capture (s : screen) :
  let s' := fst (run' s [Blur; Focus]) in
  run' s [Blur; Focus] = (s', []) /\
  isActive s' = true /\
  scanned s' = scanned s /\
  scannedData s' = scannedData s /\
  scanTime s' = scanTime s /\
  permission s' = permission s /\
  facing s' = facing s /\
  (scanned s = true ->
   forall ds, run' s' (detections ds) = (s', [])) /\
  (scanned s = false -> permission s = Some true ->
   forall type data now,
     fst (step' s' (Detect type data now)) =
     mkScreen (Some true) true data (toLocaleString now) (facing s) true).
Proof.
  cbv zeta. cbn [run step fst setIsActive]. repeat split.
  - intros Hs ds. now apply held_ignores_detections.
  - intros Hs Hp type data now. cbn [step].
    unfold render, handleBarCodeScanned. simpl. rewrite Hp, Hs. reflexivity.
Qed.


(** On a screen whose render is up to date a handler reads the state
    it updates. *)
Lemma deliver_shown (s : screen) (a : action) :
  deliver toLocaleString s s a = step' s a.
Proof. destruct a; reflexivity. Qed.

(** With a render after every event, the screen goes through the
    states of [run]. *)
Lemma play_settled (s : screen) (actions : list action) :
  play toLocaleString (mkUi s s) (settled actions) =
  (mkUi (fst (run' s actions)) (fst (run' s actions)), snd (run' s actions)).
Proof.
  revert s. induction actions as [|a rest IH]; intros s; [reflexivity|].
  cbn [settled flat_map app play ui_step shown latest run].
  rewrite deliver_shown. destruct (step' s a) as [s1 e1].
  cbn [shown latest]. fold (settled rest). rewrite IH.
  destruct (run' s1 rest) as [s2 e2]. reflexivity.
Qed.

End Capture.

(** *** The screen on concrete events *)

(** C5, the failing case: two detections reach the mounted, idle screen
    within one render.  Both find [scanned] false in the handler the
    render created, both are taken: two alerts are shown and, once
    rendered, the screen holds the second payload, EMP002, not the
    first.  With a render between the two, the second is ignored. *)
Theorem second_detection_in_one_render_taken :
  play anyToLocaleString (mkUi mounted mounted)
       [ Act (Detect "code128" "EMP001" 0);
         Act (Detect "code128" "EMP002" 40);
         Rerender ] =
  (mkUi (mkScreen (Some true) true "EMP002" (anyToLocaleString 40) back true)
        (mkScreen (Some true) true "EMP002" (anyToLocaleString 40) back true),
   [ scanAlert "code128" "EMP001" (anyToLocaleString 0);
     scanAlert "code128" "EMP002" (anyToLocaleString 40) ]) /\
  play anyToLocaleString (mkUi mounted mounted)
       [ Act (Detect "code128" "EMP001" 0);
         Rerender;
         Act (Detect "code128" "EMP002" 40);
         Rerender ] =
  (mkUi (mkScreen (Some true) true "EMP001" (anyToLocaleString 0) back true)
        (mkScreen (Some true) true "EMP001" (anyToLocaleString 0) back true),
   [ scanAlert "code128" "EMP001" (anyToLocaleString 0) ]).
Proof. split; reflexivity. Qed.

(** Three detections in a row on the mounted screen. *)
Lemma first_detection_wins_burst :
  render mounted = Camera /\
  run anyToLocaleString mounted
      [ Detect "code128" "EMP001" 0;
        Detect "code128" "EMP001" 40;
        Detect "code128" "EMP002" 80 ] =
  (mkScreen (Some true) true "EMP001" (anyToLocaleString 0) back true,
   [ scanAlert "code128" "EMP001" (anyToLocaleString 0) ]).
Proof.
  split; [reflexivity|].
  exact (proj1
    (first_detection_wins anyToLocaleString mounted "code128" "EMP001" 0
       [ ("code128", "EMP001", 40); ("code128", "EMP002", 80) ]
       eq_refl eq_refl)).
Defined.

(** C7, refuted as stated: the screen holding EMP001 loses and regains
    focus; it still holds EMP001, a detection of EMP002 is ignored, and
    the state is not the one Scan Again gives. *)
Lemma refocus_does_not_reset :
  scanned holding_EMP001 = true /\
  scanned (fst (run anyToLocaleString holding_EMP001 [Blur; Focus])) = true /\
  run anyToLocaleString holding_EMP001 [Blur; Focus; Detect "code128" "EMP002" 90] =
    (holding_EMP001, []) /\
  fst (run anyToLocaleString holding_EMP001 [Blur; Focus]) <>
  fst (run anyToLocaleString holding_EMP001 [PressScanAgain]).
Proof.
  split; [reflexivity|]. split; [reflexivity|]. split; [reflexivity|].
  discriminate.
Qed.




(** ** Further properties of the ingestion endpoint *)

Lemma kind_status_not_201 (k : IngestionError) : kind_status k <> 201.
Proof. destruct k; discriminate. Qed.

Lemma kind_status_range (k : IngestionError) :
  In (kind_status k) [201; 400; 401; 500; 503].
Proof. destruct k; simpl; auto 6. Qed.

Lemma catch_status_not_201 (error : jserror) :
  statusCode (catch_response error) <> 201.
Proof. rewrite catch_response_kind. apply kind_status_not_201. Qed.

Section Requests.

Variable StringToNumber : string -> jsnum.
Variable ToPrimitive : value -> string.
Variable toISOString : Z -> string.

Local Abbreviation POST := (post_scan StringToNumber ToPrimitive toISOString).
Local Abbreviation accepted := (guards_pass StringToNumber ToPrimitive).

(** The cases of an accepted candidate, in the order the handler meets
    them. *)
Ltac stages db fields :=
  destruct (connect_result db) as [?e1|];
    [|destruct (cannot_convert (lookup "scanDateTime" fields)) eqn:?Hdate;
      [|destruct (query_result db) as [?e2|];
        [|destruct (cannot_convert (lookup "employeeId" fields)) eqn:?Hid;
          [|destruct (close_result db) as [?e3|]]]]].

(** X1: whatever the request body and the storage, the handler calls
    the storage exactly when the body is an object whose employeeId and
    scanDateTime pass both guards; every other request, one whose
    length guard throws included, is answered without a single driver
    call. *)
Theorem storage_called_iff_accepted db req received :
  trace (snd (POST db req (start received))) <> [] <->
  exists fields,
    req = JObj fields /\
    accepted (lookup "employeeId" fields) (lookup "scanDateTime" fields) = true.
Proof.
  split.
  - intros Ht. destruct (object_or_not req) as [[fields ->] | Hno].
    + exists fields. split; [reflexivity|].
      destruct (accepted (lookup "employeeId" fields) (lookup "scanDateTime" fields))
        eqn:Hg; [reflexivity|].
      destruct (post_refused _ _ toISOString db fields received Hg) as [r [Hall _]].
      rewrite (Hall db) in Ht. now destruct Ht.
    + destruct (post_not_object StringToNumber ToPrimitive toISOString db req received Hno) as [r [Hall _]].
      rewrite (Hall db) in Ht. now destruct Ht.
  - intros [fields [-> Hg]].
    rewrite (post_accepted _ _ _ db fields received Hg). cbv zeta.
    stages db fields; discriminate.
Qed.

(** X2: whatever the request body and the storage, the driver calls of
    one request are a prefix of connect, insert, close: at most one
    insert is issued, never a second attempt, and its text is the fixed
    statement, the same for every request. *)
Theorem at_most_one_insert db req received :
  exists inputs,
    In (trace (snd (POST db req (start received))))
       [ [];
         [Connect];
         [Connect; Query sqlQuery inputs];
         [Connect; Query sqlQuery inputs; Close] ].
Proof.
  destruct (object_or_not req) as [[fields ->] | Hno].
  - destruct (accepted (lookup "employeeId" fields) (lookup "scanDateTime" fields))
      eqn:Hg.
    + exists (scan_inputs (lookup "employeeId" fields) (lookup "scanDateTime" fields)
                          (lookup "scanType" fields) (lookup "deviceInfo" fields)).
      rewrite (post_accepted _ _ _ db fields received Hg). cbv zeta.
      stages db fields; cbn [snd trace In]; auto 6.
    + exists [].
      destruct (post_refused _ _ toISOString db fields received Hg) as [r [Hall _]].
      rewrite (Hall db). left; reflexivity.
  - exists [].
    destruct (post_not_object StringToNumber ToPrimitive toISOString db req received Hno) as [r [Hall _]].
    rewrite (Hall db). left; reflexivity.
Qed.

(** X3: a 201 is sent only after the insert went through: whenever the
    response is 201, the storage accepted the connection and the
    insert, and the insert is among the calls made. *)
Theorem created_only_after_insert db req received r :
  sent (snd (POST db req (start received))) = Some r ->
  statusCode r = 201 ->
  connect_result db = None /\
  query_result db = None /\
  exists inputs, In (Query sqlQuery inputs) (trace (snd (POST db req (start received)))).
Proof.
  intros Hs H201.
  destruct (object_or_not req) as [[fields ->] | Hno].
  - destruct (accepted (lookup "employeeId" fields) (lookup "scanDateTime" fields))
      eqn:Hg.
    + revert Hs. rewrite (post_accepted _ _ _ db fields received Hg). cbv zeta.
      stages db fields; cbn [snd sent trace]; intros Hs; injection Hs as <-;
        try (now apply catch_status_not_201 in H201);
        (split; [reflexivity|]); (split; [reflexivity|]);
        eexists; right; left; reflexivity.
    + destruct (post_refused _ _ toISOString db fields received Hg)
        as [r' [Hall Hr]].
      rewrite (Hall db) in Hs. injection Hs as <-.
      destruct Hr as [-> | [-> | [_ ->]]]; discriminate H201.
  - destruct (post_not_object StringToNumber ToPrimitive toISOString db req received Hno) as [r' [Hall Hr]].
    rewrite (Hall db) in Hs. injection Hs as <-.
    destruct Hr as [-> | [error [_ ->]]]; [discriminate H201|].
    now apply catch_status_not_201 in H201.
Qed.

(** X4: whatever the request body and the storage, the handler sends a
    response, and its status is one of 201, 400, 401, 500 and 503. *)
Theorem post_status_range db req received :
  exists r,
    sent (snd (POST db req (start received))) = Some r /\
    In (statusCode r) [201; 400; 401; 500; 503].
Proof.
  destruct (post_responds StringToNumber ToPrimitive toISOString db req received)
    as [r [Hs Hcases]].
  exists r. split; [exact Hs|].
  destruct Hcases as [[-> _] | [[-> _] | [[error [w [_ ->]]] | H]]].
  - simpl; auto.
  - simpl; auto.
  - rewrite catch_response_kind. cbn [statusCode]. apply kind_status_range.
  - rewrite H. simpl; auto.
Qed.

(** X5: the handler's promise rejects in one case only: the candidate
    was accepted and inserted, the 201 was sent, and [pool.close] then
    failed; the catch block cannot answer a second time, so its own
    [json] call throws and the 201 stands.  When [pool.close] succeeds
    the handler always returns.  Conversely, an accepted candidate
    whose employeeId and scanDateTime convert to primitives, connected
    and inserted, makes the promise reject when [pool.close] fails. *)
Theorem rejects_only_on_close_failure db req received :
  (close_result db = None -> fst (POST db req (start received)) = inl tt) /\
  (forall e, fst (POST db req (start received)) = inr e ->
             e = ERR_HTTP_HEADERS_SENT /\
             connect_result db = None /\ query_result db = None /\
             close_result db <> None /\
             option_map statusCode (sent (snd (POST db req (start received)))) =
             Some 201) /\
  (forall fields,
      req = JObj fields ->
      accepted (lookup "employeeId" fields) (lookup "scanDateTime" fields) = true ->
      cannot_convert (lookup "employeeId" fields) = false ->
      cannot_convert (lookup "scanDateTime" fields) = false ->
      connect_result db = None -> query_result db = None ->
      close_result db <> None ->
      fst (POST db req (start received)) = inr ERR_HTTP_HEADERS_SENT).
Proof.
  destruct (object_or_not req) as [[fields ->] | Hno].
  - destruct (accepted (lookup "employeeId" fields) (lookup "scanDateTime" fields))
      eqn:Hg.
    + rewrite (post_accepted _ _ _ db fields received Hg). cbv zeta.
      stages db fields; cbn [fst snd sent option_map statusCode];
        (split; [intros; try reflexivity; discriminate|]);
        (split; [intros e He; try discriminate He|
                 intros fields' Heq _ Hce Hcd Hc Hq Hcl; injection Heq as <-;
                 try discriminate; try congruence; try reflexivity;
                 try (now destruct Hcl)]).
      injection He as <-. repeat split; discriminate.
    + destruct (post_refused _ _ toISOString db fields received Hg) as [r [Hall _]].
      rewrite (Hall db). cbn [fst].
      split; [reflexivity|]. split; [discriminate|].
      intros fields' Heq Hg'. injection Heq as <-. congruence.
  - destruct (post_not_object StringToNumber ToPrimitive toISOString db req received Hno) as [r [Hall _]].
    rewrite (Hall db). cbn [fst].
    split; [reflexivity|]. split; [discriminate|].
    intros fields Heq. now destruct (Hno fields).
Qed.

(** X6: the response depends on the storage only through the
    connection and the insert: two storages that agree on those give
    the same response, whatever [pool.close] does and however long it
    takes, because the 201 is sent before the pool is closed. *)
Theorem response_ignores_close db db' req received :
  connect_result db = connect_result db' ->
  connect_ms db = connect_ms db' ->
  query_result db = query_result db' ->
  query_ms db = query_ms db' ->
  sent (snd (POST db req (start received))) =
  sent (snd (POST db' req (start received))).
Proof.
  intros Hc Hcm Hq Hqm.
  destruct (object_or_not req) as [[fields ->] | Hno].
  - destruct (accepted (lookup "employeeId" fields) (lookup "scanDateTime" fields))
      eqn:Hg.
    + rewrite (post_accepted _ _ _ db fields received Hg),
              (post_accepted _ _ _ db' fields received Hg). cbv zeta.
      rewrite <- Hc, <- Hcm, <- Hq, <- Hqm.
      destruct (connect_result db);
        [|destruct (cannot_convert (lookup "scanDateTime" fields));
          [|destruct (query_result db);
            [|destruct (cannot_convert (lookup "employeeId" fields));
              [|destruct (close_result db), (close_result db')]]]];
        reflexivity.
    + destruct (post_refused _ _ toISOString db fields received Hg) as [r [Hall _]].
      now rewrite (Hall db), (Hall db').
  - destruct (post_not_object StringToNumber ToPrimitive toISOString db req received Hno) as [r [Hall _]].
    now rewrite (Hall db), (Hall db').
Qed.

(** X7: the length guard is exact on every employeeId that has a
    numeric length, a string by its characters and an array by its
    items alike: with scanDateTime present, the candidate is refused as
    InvalidFormat exactly when the length is below 3 or above 50, and
    goes on to the storage exactly when it is between 3 and 50. *)
Theorem length_guard_exact db fields received n :
  truthy (lookup "employeeId" fields) = true ->
  get (lookup "employeeId" fields) "length" = inl (num n) ->
  truthy (lookup "scanDateTime" fields) = true ->
  (sent (snd (POST db (JObj fields) (start received))) =
   Some (mkResponse 400 invalid_format_body) <-> n < 3 \/ 50 < n) /\
  (trace (snd (POST db (JObj fields) (start received))) <> [] <-> 3 <= n <= 50).
Proof.
  intros He Hl Hd.
  destruct (post_guarded StringToNumber ToPrimitive toISOString db fields received
              (num n) He Hd Hl) as [_ [Hout Hin]].
  specialize (Hout eq_refl). specialize (Hin eq_refl).
  unfold num in Hout, Hin. cbn [number_of] in Hout, Hin.
  rewrite num_lt_num, num_gt_num in Hout, Hin.
  destruct (Z.ltb_spec n 3) as [H3|H3]; [|destruct (Z.ltb_spec 50 n) as [H50|H50]];
    cbn [orb] in Hout, Hin.
  - rewrite (Hout eq_refl). cbn [snd sent trace].
    split; split; auto; try lia. intros H; now destruct H.
  - rewrite (Hout eq_refl). cbn [snd sent trace].
    split; split; auto; try lia. intros H; now destruct H.
  - rewrite (post_accepted _ _ _ db fields received (Hin eq_refl)). cbv zeta.
    stages db fields; cbn [snd sent trace];
      (split; split; [discriminate | lia | lia | discriminate]).
Qed.

(** X8: on an accepted candidate the pool is closed exactly when the
    201 was sent, that is when the connection and the insert went
    through and neither conversion of the request's fields threw; when
    the handler has connected and the request fails at any later step,
    no close follows. *)
Theorem pool_closed_iff_inserted db fields received :
  accepted (lookup "employeeId" fields) (lookup "scanDateTime" fields) = true ->
  let w := snd (POST db (JObj fields) (start received)) in
  (In Close (trace w) <-> option_map statusCode (sent w) = Some 201) /\
  (In Close (trace w) <->
   connect_result db = None /\ query_result db = None /\
   cannot_convert (lookup "scanDateTime" fields) = false /\
   cannot_convert (lookup "employeeId" fields) = false) /\
  (connect_result db = None ->
   option_map statusCode (sent w) <> Some 201 ->
   In Connect (trace w) /\ ~ In Close (trace w)).
Proof.
  intros Hg. cbv zeta.
  pose proof (close_only_on_success _ _ toISOString db fields received Hg) as Hiff.
  assert (H201 : In Close (trace (snd (POST db (JObj fields) (start received)))) <->
                 option_map statusCode
                   (sent (snd (POST db (JObj fields) (start received)))) = Some 201).
  { rewrite (post_accepted _ _ _ db fields received Hg). cbv zeta.
    stages db fields; cbn [snd sent trace In option_map]; split;
      try (intros H; repeat (destruct H as [H|H]; try discriminate H); contradiction);
      try (intros H; discriminate H);
      try (intros H; injection H as H; now apply catch_status_not_201 in H);
      auto 6. }
  split; [exact H201|]. split; [exact Hiff|].
  intros Hc Hno. split.
  - rewrite (post_accepted _ _ _ db fields received Hg), Hc. cbv zeta.
    destruct (cannot_convert (lookup "scanDateTime" fields));
      [|destruct (query_result db);
        [|destruct (cannot_convert (lookup "employeeId" fields));
          [|destruct (close_result db)]]];
      cbn [snd trace In]; auto.
  - intros Hin. apply H201 in Hin. now destruct Hno.
Qed.

End Requests.

(** *** The further properties on concrete requests *)

(** The 201 for EMP001 on a storage that is up. *)
Lemma created_only_after_insert_EMP001 :
  statusCode (mkResponse 201
    (success_body anyToISOString (JStr "EMP001") (JStr "2024-01-15T09:00:00Z")
                  JUndefined 0)) = 201 /\
  connect_result storage_up = None /\ query_result storage_up = None.
Proof.
  split; [reflexivity|].
  destruct (created_only_after_insert anyStringToNumber anyToPrimitive anyToISOString
              storage_up EMP001 0 _ eq_refl eq_refl) as [Hc [Hq _]].
  split; [exact Hc | exact Hq].
Defined.

(** A close that fails after 30 ms against one that succeeds at once. *)
Lemma response_ignores_close_slow_failure :
  sent (snd (run_post_scan storage_up EMP001 (start 0))) =
  sent (snd (run_post_scan (mkStorage None 0 None 0 [] (Some ESOCKET) 30)
                           EMP001 (start 0))).
Proof.
  exact (response_ignores_close anyStringToNumber anyToPrimitive anyToISOString
           storage_up (mkStorage None 0 None 0 [] (Some ESOCKET) 30) EMP001 0
           eq_refl eq_refl eq_refl eq_refl).
Defined.

(** An employeeId sent as an array of three items is accepted; one of
    two items is refused for its length. *)
Lemma length_guard_exact_arrays :
  trace (snd (run_post_scan storage_up
                (scan_request (JArr [num 1; num 2; num 3])
                              (JStr "2024-01-15T09:00:00Z")) (start 0))) <> [] /\
  sent (snd (run_post_scan storage_up
               (scan_request (JArr [num 1; num 2])
                             (JStr "2024-01-15T09:00:00Z")) (start 0))) =
  Some (mkResponse 400 invalid_format_body).
Proof.
  split.
  - apply (proj2 (length_guard_exact anyStringToNumber anyToPrimitive anyToISOString
             storage_up
             [ ("employeeId", JArr [num 1; num 2; num 3]);
               ("scanDateTime", JStr "2024-01-15T09:00:00Z") ]
             0 3 eq_refl eq_refl eq_refl)).
    lia.
  - apply (proj1 (length_guard_exact anyStringToNumber anyToPrimitive anyToISOString
             storage_up
             [ ("employeeId", JArr [num 1; num 2]);
               ("scanDateTime", JStr "2024-01-15T09:00:00Z") ]
             0 2 eq_refl eq_refl eq_refl)).
    lia.
Defined.

(** EMP001 against a storage that refuses the insert. *)
Lemma pool_closed_iff_inserted_refused :
  In Connect (trace (snd (run_post_scan insert_refused EMP001 (start 0)))) /\
  ~ In Close (trace (snd (run_post_scan insert_refused EMP001 (start 0)))).
Proof.
  apply (proj2 (proj2 (pool_closed_iff_inserted anyStringToNumber anyToPrimitive
                  anyToISOString insert_refused
                  [ ("employeeId", JStr "EMP001");
                    ("scanDateTime", JStr "2024-01-15T09:00:00Z") ]
                  0 eq_refl)));
    [reflexivity | discriminate].
Defined.

(** ** Properties of [GET /api/scans], [testConnection] and the health check *)

(** X9: [GET /api/scans] always returns and always answers.  It answers
    200 with the rows and their count exactly when the connection, the
    query and the close all succeed; any failure among the three, the
    close after a successful query included, is answered 500 with the
    fixed message and no detail of the error.  The pool is closed
    exactly when the connection and the query succeeded. *)
Theorem get_scans_outcome db received :
  let w := snd (get_scans db (start received)) in
  fst (get_scans db (start received)) = inl tt /\
  sent w =
    Some (match connect_result db, query_result db, close_result db with
          | None, None, None =>
              mkResponse 200
                [ ("success", JBool true);
                  ("count", num (Z.of_nat (List.length (recordset db))));
                  ("scans", JArr (recordset db)) ]
          | _, _, _ =>
              mkResponse 500
                [ ("success", JBool false);
                  ("message", JStr "Failed to fetch scans") ]
          end) /\
  (In Close (trace w) <-> connect_result db = None /\ query_result db = None) /\
  (forall text inputs, In (Query text inputs) (trace w) ->
                       text = scansQuery /\ inputs = []).
Proof.
  cbv zeta. unfold get_scans, try_catch, bind, call, send, start; simpl.
  destruct (connect_result db) as [e1|]; [|destruct (query_result db) as [e2|]];
    [| |destruct (close_result db) as [e3|]]; simpl;
    (split; [reflexivity|]); (split; [reflexivity|]); split;
    try (split; [intros H; repeat (destruct H as [H|H]; try discriminate H);
                 try contradiction; auto
                | intros [H1 H2]; try discriminate; auto]);
    try (intros text inputs H;
         repeat (destruct H as [H|H]; try discriminate H); try contradiction;
         injection H as <- <-; auto).
Qed.

Section HealthCheck.

Variable toISOString : Z -> string.

(** X10: [testConnection] never throws and sends nothing; it returns
    true exactly when both the connection and the close succeed, never
    queries, and closes the pool whenever the connection succeeded. *)
Theorem testConnection_outcome db w :
  let r := testConnection db w in
  fst r = inl (match connect_result db, close_result db with
               | None, None => true
               | _, _ => false
               end) /\
  trace (snd r) = (trace w ++ match connect_result db with
                              | None => [Connect; Close]
                              | Some _ => [Connect]
                              end)%list /\
  sent (snd r) = sent w /\
  now w <= now (snd r).
Proof.
  cbv zeta. unfold testConnection, try_catch, bind, call, ret; simpl.
  destruct (connect_result db) as [e1|]; [|destruct (close_result db) as [e2|]];
    simpl; rewrite <- ?app_assoc; repeat split; lia.
Qed.

(** X11: the health check always returns and answers 200 with status
    ok, whatever the storage does; it reports the database connected
    exactly when the connection and the close both succeeded, never
    queries, and stamps the answer with the server time read once the
    connection test is over: the time of the request plus what the
    connection took, plus what the close took when there was one. *)
Theorem health_outcome db uptime received :
  let r := get_health toISOString db uptime (start received) in
  let tested := now (snd (testConnection db (start received))) in
  fst r = inl tt /\
  tested = received + Z.of_N (connect_ms db) +
           match connect_result db with
           | None => Z.of_N (close_ms db)
           | Some _ => 0
           end /\
  sent (snd r) =
    Some (mkResponse 200
      [ ("status", JStr "ok");
        ("timestamp", JStr (toISOString tested));
        ("database",
         JStr (match connect_result db, close_result db with
               | None, None => "connected"
               | _, _ => "disconnected"
               end));
        ("uptime", JNum (Fin uptime)) ]) /\
  (forall text inputs, ~ In (Query text inputs) (trace (snd r))).
Proof.
  cbv zeta.
  unfold get_health, testConnection, try_catch, bind, call, ret, clock, send, start;
    simpl.
  destruct (connect_result db) as [e1|]; [|destruct (close_result db) as [e2|]];
    simpl; (split; [reflexivity|]); (split; [lia|]); (split; [reflexivity|]);
    intros text inputs H; repeat (destruct H as [H|H]; try discriminate H);
    contradiction.
Qed.

End HealthCheck.

(** ** Further properties of the scanner screen *)

Section Debounce.

Variable toLocaleString : Z -> string.

Local Abbreviation step1 := (step toLocaleString).
Local Abbreviation runs := (run toLocaleString).

Lemma step_keeps_blank (s : screen) (a : action) :
  idle_is_blank s -> idle_is_blank (fst (step1 s a)).
Proof.
  destruct s as [p sc sd st f act]. unfold idle_is_blank. cbn. intros Hinv.
  destruct a; cbn [step]; unfold render, handleBarCodeScanned; cbn;
    destruct p as [[|]|]; destruct act; destruct sc; cbn; auto; discriminate.
Qed.

Lemma count_alerts_app (xs ys : list effect) :
  count_alerts (xs ++ ys) = (count_alerts xs + count_alerts ys)%nat.
Proof.
  unfold count_alerts. now rewrite filter_app, length_app.
Qed.

(** X12: from any state in which an idle screen is blank (the mounted
    screen is one), every sequence of events leaves the screen in such
    a state: while no scan is held, the panel has neither scanned data
    nor a scan time left over from an earlier scan. *)
Theorem idle_screen_is_blank (s : screen) (actions : list action) :
  idle_is_blank s ->
  idle_is_blank (fst (runs s actions)).
Proof.
  revert s. induction actions as [|a rest IH]; intros s Hinv; [exact Hinv|].
  cbn [run]. pose proof (step_keeps_blank s a Hinv) as H1.
  destruct (step1 s a) as [s1 e1]. cbn [fst] in H1.
  specialize (IH s1 H1). destruct (runs s1 rest) as [s2 e2]. exact IH.
Qed.

(** A button, a focus change or a permission answer shows no alert and
    does not make the screen hold a scan; only the two Scan Again
    buttons can arm it again. *)
Lemma deliver_other (shown0 latest0 : screen) (a : action) :
  (forall type data now, a <> Detect type data now) ->
  count_alerts (snd (deliver toLocaleString shown0 latest0 a)) = 0%nat /\
  (scanned (fst (deliver toLocaleString shown0 latest0 a)) = true ->
   scanned latest0 = true) /\
  (is_reset a = false ->
   scanned (fst (deliver toLocaleString shown0 latest0 a)) = scanned latest0).
Proof.
  intros Hno. destruct a; try (now destruct (Hno type0 data now0));
    cbn [deliver is_reset]; try (destruct (render shown0));
    try (destruct (scanned shown0)); cbn; auto; repeat split; auto; discriminate.
Qed.

(** A detection and the render that follows it: an alert only when the
    render showed no scan held, and the screen then holds one. *)
Lemma deliver_detect (shown0 latest0 : screen) (type data : string) (now : Z) :
  let r := deliver toLocaleString shown0 latest0 (Detect type data now) in
  (count_alerts (snd r) = 0%nat /\ fst r = latest0) \/
  (count_alerts (snd r) = 1%nat /\ scanned shown0 = false /\ scanned (fst r) = true).
Proof.
  cbv zeta. cbn [deliver]. destruct (render shown0); auto.
  destruct (scanned shown0) eqn:Hs; auto.
  unfold handleBarCodeScanned_of. rewrite Hs. right. repeat split.
Qed.

Lemma alert_budget (n : nat) :
  forall (events : list ui_event) (u : ui),
    (List.length events <= n)%nat ->
    (scanned (latest u) = true -> scanned (shown u) = true) ->
    detections_rendered events = true ->
    (count_alerts (snd (play toLocaleString u events))
     <= (if scanned (latest u) then 0 else 1) + count_ui_resets events)%nat.
Proof.
  induction n as [|n IH]; intros events u Hlen Hinv Hd.
  { destruct events; [|cbn in Hlen; lia]. cbn. destruct (scanned (latest u)); lia. }
  destruct events as [|e rest]; [cbn; destruct (scanned (latest u)); lia|].
  cbn [List.length] in Hlen.
  destruct e as [a|].
  - assert (Hdet : (exists type data now, a = Detect type data now) \/
                   (forall type data now, a <> Detect type data now)).
    { destruct a; try (right; intros; discriminate). left; eauto. }
    destruct Hdet as [[type [data [now0 ->]]] | Hno].
    + destruct rest as [|[a'|] rest']; cbn [detections_rendered] in Hd;
        try discriminate Hd.
      cbn [List.length] in Hlen.
      cbn [play ui_step].
      pose proof (deliver_detect (shown u) (latest u) type data now0) as Hdd.
      cbv zeta in Hdd.
      destruct (deliver toLocaleString (shown u) (latest u) (Detect type data now0))
        as [s1 e1].
      cbn [fst snd shown latest] in *.
      assert (Hsync : scanned (latest (mkUi s1 s1)) = true ->
                      scanned (shown (mkUi s1 s1)) = true) by auto.
      pose proof (IH rest' (mkUi s1 s1) ltac:(lia) Hsync Hd) as Hrest.
      destruct (play toLocaleString (mkUi s1 s1) rest') as [u2 e2].
      cbn [fst snd latest app] in *. rewrite count_alerts_app.
      unfold count_ui_resets in *. cbn [filter].
      destruct Hdd as [[H0 ->] | [H1 [Hshown Hheld]]].
      * lia.
      * rewrite Hheld in Hrest.
        destruct (scanned (latest u)) eqn:Hl; [|lia].
        rewrite (Hinv eq_refl) in Hshown. discriminate Hshown.
    + cbn [play ui_step].
      destruct (deliver_other (shown u) (latest u) a Hno) as [H0 [Hkeep Hsame]].
      assert (Hd' : detections_rendered rest = true).
      { destruct a; try exact Hd. now destruct (Hno type0 data now0). }
      destruct (deliver toLocaleString (shown u) (latest u) a) as [s1 e1].
      cbn [fst snd] in *.
      assert (Hinv' : scanned (latest (mkUi (shown u) s1)) = true ->
                      scanned (shown (mkUi (shown u) s1)) = true).
      { cbn [shown latest]. auto. }
      pose proof (IH rest (mkUi (shown u) s1) ltac:(lia) Hinv' Hd') as Hrest.
      destruct (play toLocaleString (mkUi (shown u) s1) rest) as [u2 e2].
      cbn [fst snd latest] in *. rewrite count_alerts_app, H0.
      unfold count_ui_resets in *. cbn [filter].
      destruct (is_reset a) eqn:Hr.
      * destruct a; try discriminate Hr; cbn [List.length];
          destruct (scanned s1), (scanned (latest u)); lia.
      * rewrite (Hsame eq_refl) in Hrest.
        destruct a; try discriminate Hr; cbn [List.length]; lia.
  - cbn [play ui_step detections_rendered] in *.
    assert (Hsync : scanned (latest (mkUi (latest u) (latest u))) = true ->
                    scanned (shown (mkUi (latest u) (latest u))) = true) by auto.
    pose proof (IH rest (mkUi (latest u) (latest u)) ltac:(lia) Hsync Hd) as Hrest.
    destruct (play toLocaleString (mkUi (latest u) (latest u)) rest) as [u2 e2].
    cbn [fst snd latest app] in *. unfold count_ui_resets in *. cbn [filter].
    exact Hrest.
Qed.

(** X13: handlers being closures of the render that created them, the
    debounce holds when a render follows each detection: over any
    sequence of events in which every detection is followed at once by
    a render (the other events may come in any number between two
    renders), from any screen whose render is not behind on a held
    scan, the alerts shown (one per scan taken) number at most the
    Scan Again presses in the sequence, plus one if the screen started
    with no scan held. *)
Theorem one_scan_per_reset (u : ui) (events : list ui_event) :
  (scanned (latest u) = true -> scanned (shown u) = true) ->
  detections_rendered events = true ->
  (count_alerts (snd (play toLocaleString u events))
   <= (if scanned (latest u) then 0 else 1) + count_ui_resets events)%nat.
Proof.
  intros Hinv Hd. now apply (alert_budget (List.length events)).
Qed.

(** X14: pressing Flip Camera twice leaves the screen exactly as it
    was, in every state; and one press changes nothing but the facing. *)
Theorem flip_twice_restores (s : screen) :
  runs s [PressFlipCamera; PressFlipCamera] = (s, []) /\
  let s1 := fst (step1 s PressFlipCamera) in
  permission s1 = permission s /\ scanned s1 = scanned s /\
  scannedData s1 = scannedData s /\ scanTime s1 = scanTime s /\
  isActive s1 = isActive s /\
  (render s = Camera -> facing s1 <> facing s).
Proof.
  destruct s as [p sc sd st f act]. cbv zeta. cbn [run step].
  unfold render, toggleCameraFacing. cbn.
  destruct p as [[|]|]; try destruct act; cbn; try destruct f; cbn;
    repeat split; try discriminate; auto.
Qed.

(** X15: taking a scan and pressing Scan Again, on the panel or in the
    alert, brings a blank idle screen back to exactly the state it was
    in, having shown the one alert of that scan. *)
Theorem scan_then_reset_restores (s : screen) (type data : string) (now : Z) :
  render s = Camera ->
  scanned s = false ->
  idle_is_blank s ->
  runs s [Detect type data now; PressScanAgain] =
    (s, [scanAlert type data (toLocaleString now)]) /\
  runs s [Detect type data now; PressAlertScanAgain] =
    (s, [scanAlert type data (toLocaleString now)]).
Proof.
  intros Hr Hs Hinv. destruct (Hinv Hs) as [Hd Ht].
  destruct s as [p sc sd st f act]. cbn in Hs, Hd, Ht. subst sc sd st.
  unfold render in Hr. cbn in Hr.
  destruct p as [[|]|]; try discriminate Hr.
  destruct act; try discriminate Hr.
  split; reflexivity.
Qed.

(** X16: the only event that makes the screen hold a scan is a
    detection delivered to the rendered camera view (permission
    granted, screen focused); the screen then holds that detection's
    payload and the formatted time of that detection.  No button, no
    focus change and no permission answer creates a held scan. *)
Theorem only_detection_captures (s : screen) (a : action) :
  scanned s = false ->
  scanned (fst (step1 s a)) = true ->
  permission s = Some true /\ isActive s = true /\
  exists type data now,
    a = Detect type data now /\
    scannedData (fst (step1 s a)) = data /\
    scanTime (fst (step1 s a)) = toLocaleString now.
Proof.
  destruct s as [p sc sd st f act]. cbn [scanned]. intros Hs Hc. subst sc.
  destruct a; cbn [step] in *; unfold render, handleBarCodeScanned in *;
    cbn in *; destruct p as [[|]|]; destruct act; cbn in *; try discriminate Hc.
  split; [reflexivity|]. split; [reflexivity|].
  do 3 eexists. repeat split.
Qed.

End Debounce.

(** *** The further properties on concrete events *)

Lemma mounted_is_blank : idle_is_blank mounted.
Proof. intros _. split; reflexivity. Qed.

(** After a scan, a reset and a loss of focus the mounted screen is
    idle and blank. *)
Lemma idle_screen_is_blank_after_reset :
  scannedData (fst (run anyToLocaleString mounted
                      [Detect "qr" "EMP001" 0; PressScanAgain; Blur])) = "".
Proof.
  exact (proj1
    (idle_screen_is_blank anyToLocaleString mounted
       [Detect "qr" "EMP001" 0; PressScanAgain; Blur] mounted_is_blank eq_refl)).
Defined.

(** The mounted screen scans EMP001 and is reset. *)
Lemma scan_then_reset_restores_mounted :
  run anyToLocaleString mounted [Detect "qr" "EMP001" 0; PressScanAgain] =
  (mounted, [scanAlert "qr" "EMP001" (anyToLocaleString 0)]).
Proof.
  exact (proj1
    (scan_then_reset_restores anyToLocaleString mounted "qr" "EMP001" 0
       eq_refl eq_refl mounted_is_blank)).
Defined.

(** The detection of EMP001 on the mounted screen. *)
Lemma only_detection_captures_mounted :
  permission mounted = Some true /\ isActive mounted = true.
Proof.
  destruct (only_detection_captures anyToLocaleString mounted
              (Detect "qr" "EMP001" 0) eq_refl eq_refl) as [Hp [Ha _]].
  split; [exact Hp | exact Ha].
Defined.

(** A detection with its render, a reset and two more detections, each
    with its render, on the mounted screen: two alerts for one reset. *)
Lemma one_scan_per_reset_mounted :
  (count_alerts
     (snd (play anyToLocaleString (mkUi mounted mounted)
             [ Act (Detect "qr" "EMP001" 0); Rerender;
               Act PressScanAgain;
               Act (Detect "qr" "EMP002" 50); Rerender;
               Act (Detect "qr" "EMP003" 90); Rerender ]))
   <= 2)%nat.
Proof.
  exact (one_scan_per_reset anyToLocaleString (mkUi mounted mounted)
           [ Act (Detect "qr" "EMP001" 0); Rerender;
             Act PressScanAgain;
             Act (Detect "qr" "EMP002" 50); Rerender;
             Act (Detect "qr" "EMP003" 90); Rerender ]
           (fun H => H) eq_refl).
Defined.
